(** * Fitness tracker module: a shallow embedding of [homework.py]

    The program computes distance, mean speed and spent calories of three
    kinds of workout ([Running], [SportsWalking], [Swimming]) and renders
    them into a one-line report.

    Python numbers are modelled as they are at run time: an [int] is an
    unbounded integer ([Z]), a [float] is an IEEE 754 binary64 value (the
    kernel's primitive [float]).  Operators that can raise do so through a
    small error monad, in the evaluation order of the source.

    One result is not fixed by IEEE 754: [x ** 2] on a float calls the C
    library's [pow], which need not be correctly rounded.  The
    definitions that reach it ([Float.pow2_on], [Py.pow_on],
    [get_spent_calories_on]) take that function as a parameter; the names
    without [_on] are the same definitions on a library whose [pow] is
    correctly rounded. *)

From Stdlib Require Import ZArith String Ascii List Bool Lia.
From Stdlib Require Import Floats DecimalString Uint63.
From stdpp Require Import base strings gmap.

Local Open Scope Z_scope.

(** ** Exceptions and the error monad *)

(** The exceptions the program can end with.  [Unmodelled] marks behaviour of
    the Python runtime that lies outside the fragment embedded here (format
    specifications other than [.3f], powers other than squares, field
    names in digits of another script). *)
Inductive exn : Set :=
| ZeroDivisionError
| OverflowError
| TypeError
| KeyError
| ValueError
| IndexError
| AttributeError
| NotImplementedError
| Unmodelled.

Inductive result (A : Type) : Type :=
| Ok (a : A)
| Raise (e : exn).

Arguments Ok {A} a.
Arguments Raise {A} e.

Definition bind {A B : Type} (r : result A) (k : A -> result B) : result B :=
  match r with
  | Ok a => k a
  | Raise e => Raise e
  end.

Notation "'let?' x ':=' r 'in' k" := (bind r (fun x => k))
  (at level 10, x name, r at level 100, k at level 200).

Definition is_ok {A : Type} (r : result A) : bool :=
  match r with Ok _ => true | Raise _ => false end.

(** ** Numbers *)

Inductive num : Set :=
| PyInt (z : Z)
| PyFloat (f : float).

Module Float.

(** Conversion of an integer to the nearest binary64 value, ties to even
    (what [PyLong_AsDouble] computes before its range check). *)
Definition of_Z (z : Z) : float :=
  SF2Prim (binary_normalize prec emax z 0 false).

(** C's [x == 0.0]: true of both zeros, false of NaN. *)
Definition is_zero (x : float) : bool := PrimFloat.eqb x PrimFloat.zero.

(** C truthiness of a double ([if (x)]): everything but the zeros. *)
Definition truthy (x : float) : bool := negb (is_zero x).

Definition signed_zero (negative : bool) : float :=
  if negative then PrimFloat.neg_zero else PrimFloat.zero.

(** [copysign(0.0, y)]. *)
Definition zero_with_sign_of (y : float) : float :=
  match Prim2SF y with
  | S754_zero s | S754_infinity s | S754_finite s _ _ => signed_zero s
  | S754_nan => PrimFloat.zero
  end.

(** The exact value [m * 2^e] of a finite float as a signed mantissa. *)
Definition signed (s : bool) (m : positive) : Z :=
  if s then Z.neg m else Z.pos m.

(** C's [floor]: the largest integral value not above [x]. *)
Definition floor (x : float) : float :=
  match Prim2SF x with
  | S754_finite s m e =>
      if 0 <=? e then x
      else
        let q := Z.shiftr (signed s m) (- e) in
        if q =? 0 then signed_zero s else of_Z q
  | _ => x
  end.

(** C's [fmod]: the exact remainder of [x / y] truncated towards zero,
    with the sign of [x]. *)
Definition fmod (x y : float) : float :=
  match Prim2SF x, Prim2SF y with
  | S754_nan, _ | _, S754_nan => PrimFloat.nan
  | S754_infinity _, _ => PrimFloat.nan
  | _, S754_zero _ => PrimFloat.nan
  | S754_zero _, _ => x
  | S754_finite _ _ _, S754_infinity _ => x
  | S754_finite sx mx ex, S754_finite _ my ey =>
      let e := Z.min ex ey in
      let a := Z.shiftl (Z.pos mx) (ex - e) in
      let b := Z.shiftl (Z.pos my) (ey - e) in
      let r := a mod b in
      if r =? 0 then signed_zero sx
      else SF2Prim (binary_normalize prec emax (if sx then - r else r) e false)
  end.

(** The quotient that CPython's [_float_div_mod] computes from [fmod]
    for a divisor that is not zero. *)
Definition floordiv (vx wx : float) : float :=
  let md := fmod vx wx in
  let div := PrimFloat.div (PrimFloat.sub vx md) wx in
  let div :=
    if truthy md then
      if xorb (PrimFloat.ltb wx PrimFloat.zero) (PrimFloat.ltb md PrimFloat.zero)
      then PrimFloat.sub div PrimFloat.one
      else div
    else div in
  if truthy div then
    let fl := floor div in
    if PrimFloat.ltb 0x1p-1%float (PrimFloat.sub div fl)
    then PrimFloat.add fl PrimFloat.one
    else fl
  else zero_with_sign_of (PrimFloat.div vx wx).

(** The float product [x * x]: the square a C library returns for
    [pow(x, 2.0)] when its [pow] is correctly rounded. *)
Definition rounded_square (x : float) : float := PrimFloat.mul x x.

(** CPython's [float_pow] for the exponent [2.0], the only one the program
    uses.  The special cases are CPython's own; past them the result is
    the C library's [pow(iv, 2.0)], here [libm_pow2 iv].  IEEE 754 does
    not fix that function: a library may return the rounded product or a
    float next to it.  A result that overflows sets [ERANGE], which
    CPython turns into [OverflowError]. *)
Definition pow2_on (libm_pow2 : float -> float) (iv : float) : result float :=
  if PrimFloat.is_nan iv then Ok iv
  else if PrimFloat.is_infinity iv then Ok (PrimFloat.abs iv)
  else if is_zero iv then Ok PrimFloat.zero
  else
    let iv := if PrimFloat.ltb iv PrimFloat.zero then PrimFloat.opp iv else iv in
    if PrimFloat.eqb iv PrimFloat.one then Ok PrimFloat.one
    else
      let ix := libm_pow2 iv in
      if PrimFloat.is_infinity ix then Raise OverflowError else Ok ix.

(** [float_pow] on a C library whose [pow] is correctly rounded. *)
Definition pow2 : float -> result float := pow2_on rounded_square.

(** Correctly rounded quotient of two integers, [b] not zero (CPython's
    [long_true_divide]): the quotient is computed to at least 63 bits,
    a sticky bit records a remainder, and the result is rounded once. *)
Definition of_quotient (a b : Z) : float :=
  if a =? 0 then signed_zero (b <? 0)
  else
    let negative := xorb (a <? 0) (b <? 0) in
    let p := Z.abs a in
    let q := Z.abs b in
    let k := Z.max 0 (Z.log2 q - Z.log2 p + 64) in
    let n := Z.shiftl p k in
    let m := 2 * (n / q) + (if n mod q =? 0 then 0 else 1) in
    SF2Prim (binary_normalize prec emax (if negative then - m else m) (- k - 1) false).

End Float.

(** ** Python's arithmetic operators on [int] and [float] *)

Module Py.

(** [CONVERT_TO_DOUBLE]: a float as it is, an int through
    [PyLong_AsDouble], which raises when the int is out of range. *)
Definition as_double (n : num) : result float :=
  match n with
  | PyFloat f => Ok f
  | PyInt z =>
      let f := Float.of_Z z in
      if PrimFloat.is_infinity f then Raise OverflowError else Ok f
  end.

(** [n == 0] *)
Definition is_zero (n : num) : bool :=
  match n with
  | PyInt z => z =? 0
  | PyFloat f => Float.is_zero f
  end.

Definition float_binop (op : float -> float -> float) (a b : num) : result num :=
  let? x := as_double a in
  let? y := as_double b in
  Ok (PyFloat (op x y)).

Definition mul (a b : num) : result num :=
  match a, b with
  | PyInt x, PyInt y => Ok (PyInt (x * y))
  | _, _ => float_binop PrimFloat.mul a b
  end.

Definition add (a b : num) : result num :=
  match a, b with
  | PyInt x, PyInt y => Ok (PyInt (x + y))
  | _, _ => float_binop PrimFloat.add a b
  end.

Definition sub (a b : num) : result num :=
  match a, b with
  | PyInt x, PyInt y => Ok (PyInt (x - y))
  | _, _ => float_binop PrimFloat.sub a b
  end.

(** [a / b]: [long_true_divide] on two ints, [float_div] otherwise. *)
Definition truediv (a b : num) : result num :=
  match a, b with
  | PyInt x, PyInt y =>
      if y =? 0 then Raise ZeroDivisionError
      else
        let f := Float.of_quotient x y in
        if PrimFloat.is_infinity f then Raise OverflowError else Ok (PyFloat f)
  | _, _ =>
      let? x := as_double a in
      let? y := as_double b in
      if Float.is_zero y then Raise ZeroDivisionError
      else Ok (PyFloat (PrimFloat.div x y))
  end.

(** [a // b]: floor division of ints, [float_floor_div] otherwise. *)
Definition floordiv (a b : num) : result num :=
  match a, b with
  | PyInt x, PyInt y =>
      if y =? 0 then Raise ZeroDivisionError else Ok (PyInt (x / y))
  | _, _ =>
      let? x := as_double a in
      let? y := as_double b in
      if Float.is_zero y then Raise ZeroDivisionError
      else Ok (PyFloat (Float.floordiv x y))
  end.

(** [a ** b] for the exponent [2]; other exponents are outside the
    fragment.  [libm_pow2] is the C library's [pow(x, 2.0)]. *)
Definition pow_on (libm_pow2 : float -> float) (a b : num) : result num :=
  match b with
  | PyInt 2 =>
      match a with
      | PyInt x => Ok (PyInt (x * x))
      | PyFloat f => let? r := Float.pow2_on libm_pow2 f in Ok (PyFloat r)
      end
  | _ => Raise Unmodelled
  end.

(** [a ** b] on a C library whose [pow] is correctly rounded. *)
Definition pow : num -> num -> result num := pow_on Float.rounded_square.

End Py.

(** ** Rendering: [format(x, '.3f')] and [str.format] *)

Module Fmt.

(** The integer nearest to [n * 2^e] for [n >= 0], ties to even. *)
Definition round_half_even (n e : Z) : Z :=
  if 0 <=? e then Z.shiftl n e
  else
    let k := - e in
    let q := Z.shiftr n k in
    let r := n - Z.shiftl q k in
    match r ?= Z.shiftl 1 (k - 1) with
    | Lt => q
    | Gt => q + 1
    | Eq => if Z.even q then q else q + 1
    end.

Definition digit (d : Z) : ascii := ascii_of_N (48 + Z.to_N d).

Definition decimal (n : Z) : string := NilZero.string_of_uint (N.to_uint (Z.to_N n)).

(** [thousandths] is the value in units of 1/1000: the integer part, a
    period, and three fraction digits. *)
Definition fixed3 (thousandths : Z) : string :=
  let r := thousandths mod 1000 in
  decimal (thousandths / 1000)
    +:+ String "." (String (digit (r / 100))
                  (String (digit (r / 10 mod 10))
                  (String (digit (r mod 10)) EmptyString))).

Definition sign_prefix (negative : bool) (body : string) : string :=
  if negative then String "-" body else body.

(** [format(x, '.3f')] of a float: the exact binary value rounded to three
    decimals, ties to even; infinities and NaN by name. *)
Definition float_3f (x : float) : string :=
  match Prim2SF x with
  | S754_nan => "nan"
  | S754_infinity s => sign_prefix s "inf"
  | S754_zero s => sign_prefix s (fixed3 0)
  | S754_finite s m e => sign_prefix s (fixed3 (round_half_even (Z.pos m * 1000) e))
  end.

(** The values a replacement field can name. *)
Inductive value : Type :=
| VStr (s : string)
| VNum (n : num).

Definition spec_3f : string := ".3f".

(** [format(v, spec)] for the two specifications the template uses. *)
Definition format_value (spec : string) (v : value) : result string :=
  match v with
  | VStr s =>
      if String.eqb spec EmptyString then Ok s
      else if String.eqb spec spec_3f then Raise ValueError
      else Raise Unmodelled
  | VNum n =>
      if String.eqb spec spec_3f then
        let? f := Py.as_double n in Ok (float_3f f)
      else Raise Unmodelled
  end.

Definition getitem {V : Type} (d : gmap string V) (key : string) : result V :=
  match d !! key with
  | Some v => Ok v
  | None => Raise KeyError
  end.

Fixpoint snoc (s : string) (c : ascii) : string :=
  match s with
  | EmptyString => String c EmptyString
  | String a s' => String a (snoc s' c)
  end.

(** How [str.format] reads a field name.  An empty name is numbered
    automatically and a name of decimal digits is an index: both address
    the positional arguments, of which the program passes none, so the
    lookup raises IndexError (ValueError when the digits exceed the
    machine's [Py_ssize_t], here 64 bits).  Every other name is a
    keyword.  A name with a character that is no ASCII digit is a keyword
    for sure; a name of ASCII digits and non-ASCII bytes only, which
    might spell a digit of another script, is outside the fragment. *)
Definition ascii_digit (c : ascii) : bool :=
  let n := N_of_ascii c in ((48 <=? n) && (n <=? 57))%N.

Fixpoint all_ascii_digits (s : string) : bool :=
  match s with
  | EmptyString => true
  | String c rest => ascii_digit c && all_ascii_digits rest
  end.

Fixpoint has_ascii_non_digit (s : string) : bool :=
  match s with
  | EmptyString => false
  | String c rest =>
      ((N_of_ascii c <? 128)%N && negb (ascii_digit c)) || has_ascii_non_digit rest
  end.

Fixpoint decimal_value (acc : Z) (s : string) : Z :=
  match s with
  | EmptyString => acc
  | String c rest => decimal_value (10 * acc + (Z.of_N (N_of_ascii c) - 48)) rest
  end.

(** The error of looking a positional field up, [None] for a keyword. *)
Definition positional (name : string) : option exn :=
  if String.eqb name EmptyString then Some IndexError
  else if has_ascii_non_digit name then None
  else if all_ascii_digits name then
    if decimal_value 0 name <=? 2 ^ 63 - 1 then Some IndexError else Some ValueError
  else Some Unmodelled.

(** Where the scanner of [str.format] is in the template. *)
Inductive state : Type :=
| Literal
| AfterOpen
| AfterClose
| InName (name : string)
| InSpec (name spec : string).

(** The scanner of [str.format], from the left of the template;
    [resolve] looks a keyword up among the arguments.  Conversions
    ([!r]), attribute and index lookups and nested fields are outside
    the fragment. *)
Fixpoint scan (st : state) (template : string) (resolve : string -> result value)
  : result string :=
  match template with
  | EmptyString =>
      match st with
      | Literal => Ok EmptyString
      | _ => Raise ValueError
      end
  | String c rest =>
      let field (name spec : string) :=
        match positional name with
        | Some e => Raise e
        | None =>
            let? v := resolve name in
            let? s := format_value spec v in
            let? out := scan Literal rest resolve in
            Ok (s +:+ out)
        end in
      let in_name (name : string) :=
        if Ascii.eqb c "}" then field name EmptyString
        else if Ascii.eqb c ":" then scan (InSpec name EmptyString) rest resolve
        else if Ascii.eqb c "{" then Raise ValueError
        else if Ascii.eqb c "!" || Ascii.eqb c "." || Ascii.eqb c "[" then Raise Unmodelled
        else scan (InName (snoc name c)) rest resolve in
      match st with
      | Literal =>
          if Ascii.eqb c "{" then scan AfterOpen rest resolve
          else if Ascii.eqb c "}" then scan AfterClose rest resolve
          else let? out := scan Literal rest resolve in Ok (String c out)
      | AfterOpen =>
          if Ascii.eqb c "{" then
            let? out := scan Literal rest resolve in Ok (String c out)
          else in_name EmptyString
      | AfterClose =>
          if Ascii.eqb c "}" then
            let? out := scan Literal rest resolve in Ok (String c out)
          else Raise ValueError
      | InName name => in_name name
      | InSpec name spec =>
          if Ascii.eqb c "}" then field name spec
          else if Ascii.eqb c "{" then Raise Unmodelled
          else scan (InSpec name (snoc spec c)) rest resolve
      end
  end.

(** [template.format] called with the keyword arguments [kwargs] and no
    positional argument; a keyword the arguments do not have raises
    KeyError. *)
Definition format (template : string) (kwargs : gmap string value) : result string :=
  scan Literal template (getitem kwargs).

End Fmt.

(** ** [InfoMessage] *)

Module InfoMessage.

Definition default_message_output : string :=
  "Тип тренировки: {training_type}; Длительность: {duration:.3f} ч.; Дистанция: {distance:.3f} км; Ср. скорость: {speed:.3f} км/ч; Потрачено ккал: {calories:.3f}.".

Record t : Type := Build {
  training_type : string;
  duration : num;
  distance : num;
  speed : num;
  calories : num;
  message_output : string
}.

(** The constructor called with the five positional arguments, the
    template taking its default. *)
Definition make (training_type : string) (duration distance speed calories : num) : t :=
  Build training_type duration distance speed calories default_message_output.

(** [dataclasses.asdict]: every field, the template included. *)
Definition asdict (self : t) : gmap string Fmt.value :=
  <["training_type" := Fmt.VStr (training_type self)]>
  (<["duration" := Fmt.VNum (duration self)]>
  (<["distance" := Fmt.VNum (distance self)]>
  (<["speed" := Fmt.VNum (speed self)]>
  (<["calories" := Fmt.VNum (calories self)]>
  (<["message_output" := Fmt.VStr (message_output self)]> ∅))))).

Definition get_message (self : t) : result string :=
  Fmt.format (message_output self) (asdict self).

(** The entry of [asdict self] under a name, as a function of the name. *)
Definition field (self : t) (name : string) : result Fmt.value :=
  if String.eqb name "training_type" then Ok (Fmt.VStr (training_type self))
  else if String.eqb name "duration" then Ok (Fmt.VNum (duration self))
  else if String.eqb name "distance" then Ok (Fmt.VNum (distance self))
  else if String.eqb name "speed" then Ok (Fmt.VNum (speed self))
  else if String.eqb name "calories" then Ok (Fmt.VNum (calories self))
  else if String.eqb name "message_output" then Ok (Fmt.VStr (message_output self))
  else Raise KeyError.

End InfoMessage.

(** ** The [Training] hierarchy *)

(** An instance of the base class or of one of its three subclasses, with
    the fields of its dataclass. *)
Inductive Training : Type :=
| Base (action duration weight : num)
| Running (action duration weight : num)
| SportsWalking (action duration weight height : num)
| Swimming (action duration weight length_pool count_pool : num).

Definition action (self : Training) : num :=
  match self with
  | Base a _ _ | Running a _ _ | SportsWalking a _ _ _ | Swimming a _ _ _ _ => a
  end.

Definition duration (self : Training) : num :=
  match self with
  | Base _ d _ | Running _ d _ | SportsWalking _ d _ _ | Swimming _ d _ _ _ => d
  end.

Definition weight (self : Training) : num :=
  match self with
  | Base _ _ w | Running _ _ w | SportsWalking _ _ w _ | Swimming _ _ w _ _ => w
  end.

(** [type(self).__name__] *)
Definition class_name (self : Training) : string :=
  match self with
  | Base _ _ _ => "Training"
  | Running _ _ _ => "Running"
  | SportsWalking _ _ _ _ => "SportsWalking"
  | Swimming _ _ _ _ _ => "Swimming"
  end.

(** Class constants.  The literals are the binary64 values nearest to the
    decimal constants of the source (see [constants_nearest]). *)
Definition LEN_STEP_Training : float := 0x1.4cccccccccccdp-1%float.       (* 0.65 *)
Definition LEN_STEP_Swimming : float := 0x1.6147ae147ae14p+0%float.       (* 1.38 *)
Definition M_IN_KM : num := PyInt 1000.
Definition TOTTALLY_MINUTES_IN_HOURS : num := PyInt 60.
Definition COEFF_CALORIE_RUN_1 : num := PyInt 18.
Definition COEFF_CALORIE_RUN_2 : num := PyInt 20.
Definition COEFF_CALORIE_WALK_1 : float := 0x1.1eb851eb851ecp-5%float.    (* 0.035 *)
Definition COEFF_CALORIE_WALK_2 : float := 0x1.db22d0e560419p-6%float.    (* 0.029 *)
Definition COEFF_CALORIE_WALK_3 : num := PyInt 2.
Definition COEFF_CALORIE_SWIM_1 : float := 0x1.199999999999ap+0%float.    (* 1.1 *)
Definition COEFF_CALORIE_SWIM_2 : num := PyInt 2.

(** [self.LEN_STEP]: the attribute is looked up on the instance's class, and
    [Swimming] overrides it. *)
Definition LEN_STEP (self : Training) : num :=
  match self with
  | Swimming _ _ _ _ _ => PyFloat LEN_STEP_Swimming
  | _ => PyFloat LEN_STEP_Training
  end.

(** [Training.get_distance] *)
Definition Training_get_distance (self : Training) : result num :=
  let? steps := Py.mul (action self) (LEN_STEP self) in
  Py.truediv steps M_IN_KM.

(** [Swimming.get_distance] *)
Definition Swimming_get_distance (self : Training) : result num :=
  let? strokes := Py.mul (action self) (LEN_STEP self) in
  Py.truediv strokes M_IN_KM.

(** [self.get_distance()] *)
Definition get_distance (self : Training) : result num :=
  match self with
  | Swimming _ _ _ _ _ => Swimming_get_distance self
  | _ => Training_get_distance self
  end.

(** [Training.get_mean_speed] *)
Definition Training_get_mean_speed (self : Training) : result num :=
  let? distance := get_distance self in
  Py.truediv distance (duration self).

(** [Swimming.get_mean_speed] *)
Definition Swimming_get_mean_speed (self : Training) (length_pool count_pool : num)
  : result num :=
  let? total := Py.mul length_pool count_pool in
  let? km := Py.truediv total M_IN_KM in
  Py.truediv km (duration self).

(** [self.get_mean_speed()] *)
Definition get_mean_speed (self : Training) : result num :=
  match self with
  | Swimming _ _ _ length_pool count_pool => Swimming_get_mean_speed self length_pool count_pool
  | _ => Training_get_mean_speed self
  end.

(** [Training.get_spent_calories] *)
Definition Training_get_spent_calories (self : Training) : result num :=
  Raise NotImplementedError.

(** [Running.get_spent_calories] *)
Definition Running_get_spent_calories (self : Training) : result num :=
  let? speed := get_mean_speed self in
  let? x := Py.mul COEFF_CALORIE_RUN_1 speed in
  let? x := Py.sub x COEFF_CALORIE_RUN_2 in
  let? x := Py.mul x (weight self) in
  let? x := Py.truediv x M_IN_KM in
  let? x := Py.mul x (duration self) in
  Py.mul x TOTTALLY_MINUTES_IN_HOURS.

(** [SportsWalking.get_spent_calories], on a platform whose C library
    computes [pow(x, 2.0)] as [libm_pow2 x]. *)
Definition SportsWalking_get_spent_calories_on (libm_pow2 : float -> float)
  (self : Training) (height : num) : result num :=
  let? base := Py.mul (PyFloat COEFF_CALORIE_WALK_1) (weight self) in
  let? speed := get_mean_speed self in
  let? squared := Py.pow_on libm_pow2 speed COEFF_CALORIE_WALK_3 in
  let? ratio := Py.floordiv squared height in
  let? x := Py.mul ratio (PyFloat COEFF_CALORIE_WALK_2) in
  let? x := Py.mul x (weight self) in
  let? x := Py.add base x in
  let? x := Py.mul x (duration self) in
  Py.mul x TOTTALLY_MINUTES_IN_HOURS.

(** The same on a C library whose [pow] is correctly rounded. *)
Definition SportsWalking_get_spent_calories : Training -> num -> result num :=
  SportsWalking_get_spent_calories_on Float.rounded_square.

(** [Swimming.get_spent_calories] *)
Definition Swimming_get_spent_calories (self : Training) : result num :=
  let? speed := get_mean_speed self in
  let? x := Py.add speed (PyFloat COEFF_CALORIE_SWIM_1) in
  let? x := Py.mul x COEFF_CALORIE_SWIM_2 in
  Py.mul x (weight self).

(** [self.get_spent_calories()]; of the four methods only
    [SportsWalking]'s calls the C library. *)
Definition get_spent_calories_on (libm_pow2 : float -> float) (self : Training)
  : result num :=
  match self with
  | Base _ _ _ => Training_get_spent_calories self
  | Running _ _ _ => Running_get_spent_calories self
  | SportsWalking _ _ _ height => SportsWalking_get_spent_calories_on libm_pow2 self height
  | Swimming _ _ _ _ _ => Swimming_get_spent_calories self
  end.

(** The same on a C library whose [pow] is correctly rounded. *)
Definition get_spent_calories : Training -> result num :=
  get_spent_calories_on Float.rounded_square.

(** [Training.show_training_info]: the arguments are evaluated from the
    left, so the first method that raises decides the error. *)
Definition show_training_info (self : Training) : result InfoMessage.t :=
  let? distance := get_distance self in
  let? speed := get_mean_speed self in
  let? calories := get_spent_calories self in
  Ok (InfoMessage.make (class_name self) (duration self) distance speed calories).

(** ** The dispatcher and the driver *)

(** The classes the dispatcher knows. *)
Inductive training_class : Set :=
| ClsSwimming
| ClsRunning
| ClsSportsWalking.

(** The class called with the unpacked [data]: the dataclass's generated
    [__init__] takes exactly its fields, positionally, and raises
    [TypeError] on any other count. *)
Definition construct (cls : training_class) (data : list num) : result Training :=
  match cls, data with
  | ClsRunning, [a; d; w] => Ok (Running a d w)
  | ClsSportsWalking, [a; d; w; h] => Ok (SportsWalking a d w h)
  | ClsSwimming, [a; d; w; l; c] => Ok (Swimming a d w l c)
  | _, _ => Raise TypeError
  end.

Definition arity (cls : training_class) : nat :=
  match cls with
  | ClsRunning => 3
  | ClsSportsWalking => 4
  | ClsSwimming => 5
  end.

(** What [read_package] can hand back: the annotation promises a
    [Training], the [except] branch returns a [str]. *)
Inductive object : Type :=
| Instance (training : Training)
| Str (s : string).

Definition workout_code : gmap string training_class :=
  <["SWM" := ClsSwimming]> (<["RUN" := ClsRunning]> (<["WLK" := ClsSportsWalking]> ∅)).

Definition unknown_workout : string := "Такой тренировки нет!".

(** [try: body except KeyError: handler] *)
Definition except_KeyError {A : Type} (body handler : result A) : result A :=
  match body with
  | Raise KeyError => handler
  | other => other
  end.

Definition read_package (workout_type : string) (data : list num) : result object :=
  except_KeyError
    (let? cls := Fmt.getitem workout_code workout_type in
     let? training := construct cls data in
     Ok (Instance training))
    (Ok (Str unknown_workout)).

(** [main]: the result is the line that is printed.  A [str] has no
    [show_training_info] attribute. *)
Definition main (training : object) : result string :=
  match training with
  | Instance t =>
      let? info := show_training_info t in
      InfoMessage.get_message info
  | Str _ => Raise AttributeError
  end.

(** The packages of the [__main__] block. *)
Definition packages : list (string * list num) :=
  [ ("SWM", [PyInt 720; PyInt 1; PyInt 80; PyInt 25; PyInt 40]);
    ("RUN", [PyInt 15000; PyInt 1; PyInt 75]);
    ("WLK", [PyInt 9000; PyInt 1; PyInt 75; PyInt 180]) ].

Definition run (package : string * list num) : result string :=
  let? training := read_package (fst package) (snd package) in
  main training.

(** ** Vocabulary of the statements *)

(** The errors an arithmetic operator raises on its own, as opposed to a
    [raise] statement of the program. *)
Definition arithmetic (e : exn) : Prop :=
  e = ZeroDivisionError \/ e = OverflowError.

(** What the mean speed divides by the duration: the distance, or for
    [Swimming] the pool lengths swum, in km. *)
Definition mean_speed_dividend (self : Training) : result num :=
  match self with
  | Swimming _ _ _ length_pool count_pool =>
      let? total := Py.mul length_pool count_pool in
      Py.truediv total M_IN_KM
  | _ => get_distance self
  end.

(** The same instance with another action count. *)
Definition with_action (self : Training) (a : num) : Training :=
  match self with
  | Base _ d w => Base a d w
  | Running _ d w => Running a d w
  | SportsWalking _ d w h => SportsWalking a d w h
  | Swimming _ d w l c => Swimming a d w l c
  end.

(** A float that is a number: a zero or a finite non-zero value. *)
Definition finite (x : float) : bool :=
  match Prim2SF x with
  | S754_zero _ | S754_finite _ _ _ => true
  | S754_infinity _ | S754_nan => false
  end.

Definition is_digit (c : ascii) : Prop := (48 <= N_of_ascii c <= 57)%N.

Fixpoint all_digits (s : string) : Prop :=
  match s with
  | EmptyString => True
  | String c rest => is_digit c /\ all_digits rest
  end.

(** A rendering with exactly three decimals: an optional minus sign, at
    least one digit, a period, three digits. *)
Definition three_decimals (s : string) : Prop :=
  exists (negative : bool) (whole : string) (d1 d2 d3 : ascii),
    s = Fmt.sign_prefix negative
          (whole +:+ String "." (String d1 (String d2 (String d3 EmptyString))))
    /\ whole <> EmptyString /\ all_digits whole
    /\ is_digit d1 /\ is_digit d2 /\ is_digit d3.

(** The distance in km of [a] steps of length [step], as [get_distance]
    computes it from an int count. *)
Definition distance_of (step : float) (a : Z) : float :=
  PrimFloat.div (PrimFloat.mul (Float.of_Z a) step) 1000.

(** The last action count up to which the distance of a variant is
    strictly increasing: this count and the next one have the same
    distance (see [get_distance_not_increasing]). *)
Definition last_count (self : Training) : Z :=
  match self with
  | Swimming _ _ _ _ _ => 6373980450875365
  | _ => 6766225401698462
  end.

(** The location of the fraction [r / n] (with [0 <= r < n]) in the unit
    interval: exact, or below, at or above the middle. *)
Definition location_of (r n : Z) : location :=
  if r =? 0 then loc_Exact else loc_Inexact (2 * r ?= n).

(** The integer nearest to [t / n], ties to even. *)
Definition nearest_even (t n : Z) : Z :=
  round_nearest_even (t / n) (location_of (t mod n) n).

(** A shift record holds the quotient of [t] by [n] and the location of
    the remainder. *)
Definition holds (mrs : shr_record) (t n : Z) : Prop :=
  0 < n /\ 0 <= t /\ shr_m mrs = t / n
  /\ loc_of_shr_record mrs = location_of (t mod n) n.

(** The float of sign [s] and value [m * 2^e], for [2^52 <= m <= 2^53]. *)
Definition rounded (s : bool) (m e : Z) : spec_float :=
  if m <? 2 ^ 53 then S754_finite s (Z.to_pos m) e
  else S754_finite s (Z.to_pos (2 ^ 52)) (e + 1).

(** The float 1000.0. *)
Definition thousand : spec_float := S754_finite false 8796093022208000 (-43).

(** What the product stage establishes of the float [mp * 2^kp] (in units
    of the step's last place) for the count [a] and the step mantissa
    [cm]: a normal mantissa within half a unit of the exact product. *)
Definition product_near (cm a mp kp : Z) : Prop :=
  2 ^ 52 <= mp < 2 ^ 53 /\ 0 <= kp /\ 2 * Z.abs (mp * 2 ^ kp - a * cm) <= 2 ^ kp.

(** The same of the quotient by 1000 of a float of mantissa [mp]. *)
Definition quotient_near (mp md kd : Z) : Prop :=
  2 ^ 52 <= md < 2 ^ 53 /\ (kd = 0 \/ kd = 1)
  /\ 2 * Z.abs (125 * md * 2 ^ kd - 128 * mp) <= 125 * 2 ^ kd.

(** Whether [x] is a normal float within half a unit in the last place of
    the fraction [p / q], hence a binary64 value nearest to it. *)
Definition nearest_to (x : float) (p q : Z) : bool :=
  match Prim2SF x with
  | S754_finite false m e =>
      (2 ^ 52 <=? Z.pos m) && (Z.pos m <? 2 ^ 53) && (e <? 0)
      && (2 * Z.abs (Z.pos m * q - p * 2 ^ (- e)) <=? q)
  | _ => false
  end.

(** The dataclass fields of an instance, in the order of its [__init__]. *)
Definition fields (self : Training) : list num :=
  match self with
  | Base a d w | Running a d w => [a; d; w]
  | SportsWalking a d w h => [a; d; w; h]
  | Swimming a d w l c => [a; d; w; l; c]
  end.

(** The dispatcher's class of an instance; the bare base class has none. *)
Definition class_of (self : Training) : option training_class :=
  match self with
  | Base _ _ _ => None
  | Running _ _ _ => Some ClsRunning
  | SportsWalking _ _ _ _ => Some ClsSportsWalking
  | Swimming _ _ _ _ _ => Some ClsSwimming
  end.

(** The default template with its five fields filled in. *)
Definition rendered (label : string) (duration distance speed calories : float) : string :=
  "Тип тренировки: " +:+ label
  +:+ "; Длительность: " +:+ Fmt.float_3f duration
  +:+ " ч.; Дистанция: " +:+ Fmt.float_3f distance
  +:+ " км; Ср. скорость: " +:+ Fmt.float_3f speed
  +:+ " км/ч; Потрачено ккал: " +:+ Fmt.float_3f calories +:+ ".".

(** A template without replacement fields or escapes: no brace at all. *)
Fixpoint brace_free (s : string) : bool :=
  match s with
  | EmptyString => true
  | String c rest => negb (Ascii.eqb c "{") && negb (Ascii.eqb c "}") && brace_free rest
  end.





(** * Properties *)

(** ** The constants and the driver *)

(** The float constants are the binary64 values nearest to 0.65, 1.38,
    0.035, 0.029 and 1.1, which is how Python reads these literals. *)
Lemma constants_nearest :
  nearest_to LEN_STEP_Training 65 100 = true
  /\ nearest_to LEN_STEP_Swimming 138 100 = true
  /\ nearest_to COEFF_CALORIE_WALK_1 35 1000 = true
  /\ nearest_to COEFF_CALORIE_WALK_2 29 1000 = true
  /\ nearest_to COEFF_CALORIE_SWIM_1 11 10 = true.
Proof. repeat split; vm_compute; reflexivity. Qed.

(** X13. The [__main__] block: its three packages go through
    [read_package] and [main] without an error, and these are the three
    lines it prints, in order. *)
Lemma driver_output :
  map run packages =
  [ Ok "Тип тренировки: Swimming; Длительность: 1.000 ч.; Дистанция: 0.994 км; Ср. скорость: 1.000 км/ч; Потрачено ккал: 336.000.";
    Ok "Тип тренировки: Running; Длительность: 1.000 ч.; Дистанция: 9.750 км; Ср. скорость: 9.750 км/ч; Потрачено ккал: 699.750.";
    Ok "Тип тренировки: SportsWalking; Длительность: 1.000 ч.; Дистанция: 5.850 км; Ср. скорость: 5.850 км/ч; Потрачено ккал: 157.500." ].
Proof. vm_compute. reflexivity. Qed.

(** ** The dispatcher *)

Section Dispatcher.

Implicit Types (code : string) (data : list num) (cls : training_class).

Lemma workout_code_unknown code :
  code <> "SWM" -> code <> "RUN" -> code <> "WLK" -> workout_code !! code = None.
Proof.
  intros Hswm Hrun Hwlk. unfold workout_code.
  rewrite !lookup_insert_ne by congruence.
  apply lookup_empty.
Qed.

Lemma workout_code_known code cls :
  workout_code !! code = Some cls ->
  (code = "SWM" /\ cls = ClsSwimming)
  \/ (code = "RUN" /\ cls = ClsRunning)
  \/ (code = "WLK" /\ cls = ClsSportsWalking).
Proof.
  unfold workout_code. intros H.
  destruct (decide (code = "SWM")) as [->|Hswm].
  { rewrite lookup_insert_eq in H. left. split; congruence. }
  rewrite lookup_insert_ne in H by congruence.
  destruct (decide (code = "RUN")) as [->|Hrun].
  { rewrite lookup_insert_eq in H. right; left. split; congruence. }
  rewrite lookup_insert_ne in H by congruence.
  destruct (decide (code = "WLK")) as [->|Hwlk].
  { rewrite lookup_insert_eq in H. right; right. split; congruence. }
  rewrite lookup_insert_ne, lookup_empty in H by congruence. discriminate.
Qed.

Lemma construct_arity cls data :
  length data <> arity cls -> construct cls data = Raise TypeError.
Proof.
  destruct cls; simpl;
    repeat (destruct data as [|? data]; simpl; try reflexivity; try congruence).
Qed.

Lemma construct_ok cls data :
  length data = arity cls -> exists t, construct cls data = Ok t.
Proof.
  destruct cls; simpl;
    repeat (destruct data as [|? data]; simpl; try discriminate);
    intros _; eexists; reflexivity.
Qed.

End Dispatcher.

(** C4. A code outside SWM, RUN, WLK makes [read_package] return the plain
    string of the [except] branch, whatever the data: never a [Training]
    instance, told apart from one by its constructor, and unusable as one
    ([main] fails on it with AttributeError). *)
Theorem read_package_unknown_code (code : string) (data : list num) :
  code <> "SWM" -> code <> "RUN" -> code <> "WLK" ->
  read_package code data = Ok (Str unknown_workout)
  /\ (forall t, read_package code data <> Ok (Instance t))
  /\ run (code, data) = Raise AttributeError.
Proof.
  intros Hswm Hrun Hwlk.
  assert (Hret : read_package code data = Ok (Str unknown_workout)).
  { unfold read_package, Fmt.getitem.
    rewrite (workout_code_unknown code Hswm Hrun Hwlk). reflexivity. }
  split; [exact Hret|]. split.
  - intros t. rewrite Hret. discriminate.
  - unfold run. simpl fst; simpl snd. rewrite Hret. reflexivity.
Qed.

Lemma read_package_unknown_code_witness :
  read_package "XYZ" [PyInt 1; PyInt 1; PyInt 1] = Ok (Str unknown_workout)
  /\ (forall t, read_package "XYZ" [PyInt 1; PyInt 1; PyInt 1] <> Ok (Instance t))
  /\ run ("XYZ", [PyInt 1; PyInt 1; PyInt 1]) = Raise AttributeError.
Proof.
  apply (read_package_unknown_code "XYZ" [PyInt 1; PyInt 1; PyInt 1]); discriminate.
Defined.

(** C7. For a recognized code, a data list whose length is not the arity of
    the mapped class (3 for Running, 4 for SportsWalking, 5 for Swimming)
    makes [read_package] fail with TypeError, which the [except KeyError]
    clause does not catch; no instance with a defaulted field is built. *)
Theorem read_package_arity_mismatch (code : string) (cls : training_class)
    (data : list num) :
  workout_code !! code = Some cls ->
  length data <> arity cls ->
  read_package code data = Raise TypeError
  /\ workout_code !! "RUN" = Some ClsRunning /\ arity ClsRunning = 3%nat
  /\ workout_code !! "WLK" = Some ClsSportsWalking /\ arity ClsSportsWalking = 4%nat
  /\ workout_code !! "SWM" = Some ClsSwimming /\ arity ClsSwimming = 5%nat.
Proof.
  intros Hcode Hlen. split.
  - unfold read_package, Fmt.getitem. rewrite Hcode. simpl.
    rewrite (construct_arity cls data Hlen). reflexivity.
  - repeat split; reflexivity.
Qed.

Lemma read_package_arity_mismatch_witness :
  read_package "RUN" [PyInt 1; PyInt 1] = Raise TypeError.
Proof.
  apply (read_package_arity_mismatch "RUN" ClsRunning [PyInt 1; PyInt 1]).
  - reflexivity.
  - simpl. lia.
Defined.

(** ** Which errors the operators raise *)

Section OperatorErrors.

Implicit Types (a b : num) (e : exn).

Lemma bind_raise {A B : Type} (r : result A) (k : A -> result B) e :
  bind r k = Raise e -> r = Raise e \/ exists x, r = Ok x /\ k x = Raise e.
Proof.
  destruct r as [x|e']; simpl; intros H.
  - right. exists x. split; [reflexivity|exact H].
  - left. congruence.
Qed.

Lemma bind_arithmetic {A B : Type} (r : result A) (k : A -> result B) :
  (forall e, r = Raise e -> arithmetic e) ->
  (forall x e, r = Ok x -> k x = Raise e -> arithmetic e) ->
  forall e, bind r k = Raise e -> arithmetic e.
Proof.
  intros Hr Hk e H. destruct (bind_raise r k e H) as [H1|(x & H1 & H2)].
  - exact (Hr e H1).
  - exact (Hk x e H1 H2).
Qed.

Lemma as_double_raise a e : Py.as_double a = Raise e -> e = OverflowError.
Proof.
  destruct a as [z|f]; simpl; [|discriminate].
  destruct (PrimFloat.is_infinity (Float.of_Z z)); congruence.
Qed.

Lemma float_binop_raise op a b e :
  Py.float_binop op a b = Raise e -> arithmetic e.
Proof.
  unfold Py.float_binop. intros H. right.
  destruct (Py.as_double a) as [x|e1] eqn:Ha; simpl in H.
  - destruct (Py.as_double b) as [y|e2] eqn:Hb; simpl in H; [discriminate|].
    inversion H; subst. exact (as_double_raise b e Hb).
  - inversion H; subst. exact (as_double_raise a e Ha).
Qed.

Lemma mul_raise a b e : Py.mul a b = Raise e -> arithmetic e.
Proof.
  destruct a, b; simpl; try discriminate; apply float_binop_raise.
Qed.

Lemma add_raise a b e : Py.add a b = Raise e -> arithmetic e.
Proof.
  destruct a, b; simpl; try discriminate; apply float_binop_raise.
Qed.

Lemma sub_raise a b e : Py.sub a b = Raise e -> arithmetic e.
Proof.
  destruct a, b; simpl; try discriminate; apply float_binop_raise.
Qed.

Lemma float_division_raise (op : float -> float -> float) a b e :
  (let? x := Py.as_double a in
   let? y := Py.as_double b in
   if Float.is_zero y then Raise ZeroDivisionError else Ok (PyFloat (op x y)))
  = Raise e -> arithmetic e.
Proof.
  intros H.
  destruct (Py.as_double a) as [x|e1] eqn:Ha; simpl in H.
  - destruct (Py.as_double b) as [y|e2] eqn:Hb; simpl in H.
    + destruct (Float.is_zero y); [|discriminate].
      left. congruence.
    + right. inversion H; subst. exact (as_double_raise b e Hb).
  - right. inversion H; subst. exact (as_double_raise a e Ha).
Qed.

Lemma truediv_raise a b e : Py.truediv a b = Raise e -> arithmetic e.
Proof.
  destruct a as [x|x], b as [y|y];
    try (exact (float_division_raise PrimFloat.div _ _ e)).
  simpl. destruct (y =? 0); [left; congruence|].
  destruct (PrimFloat.is_infinity (Float.of_quotient x y)); [right; congruence|discriminate].
Qed.

Lemma floordiv_raise a b e : Py.floordiv a b = Raise e -> arithmetic e.
Proof.
  destruct a as [x|x], b as [y|y];
    try (exact (float_division_raise Float.floordiv _ _ e)).
  simpl. destruct (y =? 0); [left; congruence|discriminate].
Qed.

Lemma pow2_raise libm_pow2 (x : float) e :
  Float.pow2_on libm_pow2 x = Raise e -> e = OverflowError.
Proof.
  unfold Float.pow2_on.
  repeat match goal with
         | |- context [if ?c then _ else _] => destruct c
         end; congruence.
Qed.

Lemma pow_square_raise libm_pow2 a e :
  Py.pow_on libm_pow2 a COEFF_CALORIE_WALK_3 = Raise e -> arithmetic e.
Proof.
  destruct a as [x|x]; simpl; [discriminate|].
  destruct (Float.pow2_on libm_pow2 x) as [r|e1] eqn:Hp; simpl; [discriminate|].
  intros H. inversion H; subst. right. exact (pow2_raise libm_pow2 x e Hp).
Qed.

(** A true division that succeeds yields a float. *)
Lemma truediv_ok_float a b r :
  Py.truediv a b = Ok r -> exists f, r = PyFloat f.
Proof.
  destruct a as [x|x], b as [y|y]; simpl;
    repeat match goal with
           | |- context [bind ?r _] => destruct r; simpl
           | |- context [if ?c then _ else _] => destruct c
           end;
    intros H; inversion H; eexists; reflexivity.
Qed.

End OperatorErrors.

(** ** Errors of the methods *)

Section MethodErrors.

Implicit Types (t : Training) (e : exn).

Local Ltac operator_raise :=
  first [ apply mul_raise | apply add_raise | apply sub_raise
        | apply truediv_raise | apply floordiv_raise | apply pow_square_raise ].

Local Ltac arith_chain :=
  repeat first
    [ operator_raise
    | intros ?; operator_raise
    | apply bind_arithmetic; [|intros ? ? ?] ].

Lemma get_distance_raise t e : get_distance t = Raise e -> arithmetic e.
Proof.
  revert e. destruct t; cbn [get_distance];
    unfold Training_get_distance, Swimming_get_distance; arith_chain.
Qed.

Lemma get_mean_speed_raise t e : get_mean_speed t = Raise e -> arithmetic e.
Proof.
  revert e. destruct t; cbn [get_mean_speed];
    unfold Training_get_mean_speed, Swimming_get_mean_speed; arith_chain;
    apply get_distance_raise.
Qed.

Lemma concrete_calories_raise libm_pow2 t e :
  (forall a d w, t <> Base a d w) ->
  get_spent_calories_on libm_pow2 t = Raise e -> arithmetic e.
Proof.
  intros Hbase. revert e. destruct t; cbn [get_spent_calories_on].
  - exfalso. exact (Hbase _ _ _ eq_refl).
  - unfold Running_get_spent_calories; arith_chain; apply get_mean_speed_raise.
  - unfold SportsWalking_get_spent_calories_on; arith_chain; apply get_mean_speed_raise.
  - unfold Swimming_get_spent_calories; arith_chain; apply get_mean_speed_raise.
Qed.

End MethodErrors.

(** C6. [get_spent_calories] on a bare [Training] instance raises
    NotImplementedError, and that [raise] is the only explicit failure of
    the hierarchy: no other method and no concrete variant ever ends with
    NotImplementedError, and every other failure of a method is an error
    of an arithmetic operator (ZeroDivisionError or OverflowError). *)
Theorem not_implemented_only_on_base :
  (forall a d w, get_spent_calories (Base a d w) = Raise NotImplementedError)
  /\ (forall t e, get_spent_calories t = Raise e ->
                 (e = NotImplementedError /\ exists a d w, t = Base a d w)
                 \/ (arithmetic e /\ forall a d w, t <> Base a d w))
  /\ (forall t e, get_distance t = Raise e -> arithmetic e)
  /\ (forall t e, get_mean_speed t = Raise e -> arithmetic e)
  /\ (forall t e, show_training_info t = Raise e ->
                 (e = NotImplementedError /\ exists a d w, t = Base a d w)
                 \/ arithmetic e).
Proof.
  assert (Hcal : forall t e, get_spent_calories t = Raise e ->
                 (e = NotImplementedError /\ exists a d w, t = Base a d w)
                 \/ (arithmetic e /\ forall a d w, t <> Base a d w)).
  { intros t e H.
    destruct t as [a d w|a d w|a d w h|a d w l c].
    - left. simpl in H. unfold Training_get_spent_calories in H.
      split; [congruence|]. exists a, d, w. reflexivity.
    - right. assert (Hb : forall a' d' w', Running a d w <> Base a' d' w') by discriminate.
      split; [exact (concrete_calories_raise Float.rounded_square _ e Hb H)|exact Hb].
    - right. assert (Hb : forall a' d' w', SportsWalking a d w h <> Base a' d' w') by discriminate.
      split; [exact (concrete_calories_raise Float.rounded_square _ e Hb H)|exact Hb].
    - right. assert (Hb : forall a' d' w', Swimming a d w l c <> Base a' d' w') by discriminate.
      split; [exact (concrete_calories_raise Float.rounded_square _ e Hb H)|exact Hb]. }
  split; [reflexivity|]. split; [exact Hcal|].
  split; [exact get_distance_raise|]. split; [exact get_mean_speed_raise|].
  intros t e H. unfold show_training_info in H.
  destruct (bind_raise _ _ _ H) as [H1|(x & _ & H1)]; clear H.
  { right. exact (get_distance_raise t e H1). }
  destruct (bind_raise _ _ _ H1) as [H2|(y & _ & H2)]; clear H1.
  { right. exact (get_mean_speed_raise t e H2). }
  destruct (bind_raise _ _ _ H2) as [H3|(z & _ & H3)]; clear H2; [|discriminate].
  destruct (Hcal t e H3) as [Hl|[Hr _]]; [left; exact Hl|right; exact Hr].
Qed.

(** ** Facts about binary64 values *)

Section FloatFacts.

Lemma SFeqb_refl (f : spec_float) : f <> S754_nan -> SFeqb f f = true.
Proof.
  unfold SFeqb, SFcompare. destruct f as [s|s| |s m e]; intros H;
    try (destruct s; reflexivity); [congruence|].
  rewrite Z.compare_refl.
  change (Pos.compare_cont Eq m m) with (Pos.compare m m).
  rewrite Pos.compare_refl. destruct s; reflexivity.
Qed.

Lemma is_nan_inv (x : float) : PrimFloat.is_nan x = true -> x = PrimFloat.nan.
Proof.
  unfold PrimFloat.is_nan. rewrite FloatAxioms.eqb_spec. intros H.
  apply Prim2SF_inj. change (Prim2SF PrimFloat.nan) with S754_nan.
  destruct (Prim2SF x) eqn:Hx; try reflexivity;
    rewrite SFeqb_refl in H by discriminate; discriminate.
Qed.

Lemma is_zero_inv (x : float) :
  Float.is_zero x = true -> x = PrimFloat.zero \/ x = PrimFloat.neg_zero.
Proof.
  unfold Float.is_zero. rewrite FloatAxioms.eqb_spec.
  change (Prim2SF PrimFloat.zero) with (S754_zero false).
  destruct (Prim2SF x) as [s|s| |s m e] eqn:Hx; cbn.
  - intros _. destruct s; [right|left]; apply Prim2SF_inj; rewrite Hx; reflexivity.
  - destruct s; discriminate.
  - discriminate.
  - destruct s; discriminate.
Qed.

Lemma is_infinity_inv (x : float) :
  PrimFloat.is_infinity x = true -> x = PrimFloat.infinity \/ x = PrimFloat.neg_infinity.
Proof.
  unfold PrimFloat.is_infinity. rewrite FloatAxioms.eqb_spec, FloatAxioms.abs_spec.
  change (Prim2SF PrimFloat.infinity) with (S754_infinity false).
  destruct (Prim2SF x) as [s|s| |s m e] eqn:Hx; cbn; try discriminate.
  intros _. destruct s; [right|left]; apply Prim2SF_inj; rewrite Hx; reflexivity.
Qed.

Lemma eqb_one_inv (x : float) : PrimFloat.eqb x PrimFloat.one = true -> x = PrimFloat.one.
Proof.
  rewrite FloatAxioms.eqb_spec. intros H. apply Prim2SF_inj. revert H.
  change (Prim2SF PrimFloat.one) with (S754_finite false 4503599627370496 (-52)).
  unfold SFeqb, SFcompare.
  destruct (Prim2SF x) as [s|s| |s m e]; try (destruct s; discriminate); try discriminate.
  destruct s; [discriminate|].
  destruct (Z.compare_spec e (-52)); try discriminate. subst e.
  destruct (Pos.compare_cont Eq m _) eqn:Hm; try discriminate.
  apply Pos.compare_eq in Hm. subst m. reflexivity.
Qed.

Lemma mul_opp_opp (x : float) : PrimFloat.mul (PrimFloat.opp x) (PrimFloat.opp x) = PrimFloat.mul x x.
Proof.
  apply Prim2SF_inj. rewrite !FloatAxioms.mul_spec, FloatAxioms.opp_spec. unfold SF64mul.
  destruct (Prim2SF x) as [s|s| |s m e]; cbn; try reflexivity; destruct s; reflexivity.
Qed.

(** Python's [x ** 2] is the float product [x * x] whenever that product
    is not an infinity. *)
Lemma pow2_square (x : float) :
  PrimFloat.is_infinity (PrimFloat.mul x x) = false -> Float.pow2 x = Ok (PrimFloat.mul x x).
Proof.
  intros Hfin. unfold Float.pow2, Float.pow2_on, Float.rounded_square.
  destruct (PrimFloat.is_nan x) eqn:Hnan.
  { rewrite (is_nan_inv x Hnan). reflexivity. }
  destruct (PrimFloat.is_infinity x) eqn:Hinf.
  { destruct (is_infinity_inv x Hinf) as [-> | ->]; vm_compute in Hfin; discriminate. }
  destruct (Float.is_zero x) eqn:Hzero.
  { destruct (is_zero_inv x Hzero) as [-> | ->]; reflexivity. }
  assert (Hsq : forall y, y = (if PrimFloat.ltb x PrimFloat.zero then PrimFloat.opp x else x) ->
                          PrimFloat.mul y y = PrimFloat.mul x x).
  { intros y ->. destruct (PrimFloat.ltb x PrimFloat.zero); [apply mul_opp_opp|reflexivity]. }
  specialize (Hsq _ eq_refl).
  destruct (PrimFloat.eqb _ PrimFloat.one) eqn:Hone.
  { apply eqb_one_inv in Hone. rewrite <- Hsq, Hone. reflexivity. }
  rewrite Hsq, Hfin. reflexivity.
Qed.

(** Past the special cases, that is for a finite [x] above zero other
    than 1, [x ** 2] is what the C library's pow returns, and an infinite
    result is raised as OverflowError. *)
Lemma pow2_on_ordinary (libm_pow2 : float -> float) (x : float) :
  PrimFloat.is_infinity x = false ->
  PrimFloat.ltb PrimFloat.zero x = true ->
  PrimFloat.eqb x PrimFloat.one = false ->
  Float.pow2_on libm_pow2 x
  = if PrimFloat.is_infinity (libm_pow2 x) then Raise OverflowError else Ok (libm_pow2 x).
Proof.
  intros Hinf Hpos Hone. unfold Float.pow2_on, Float.is_zero.
  assert (H : PrimFloat.is_nan x = false /\ PrimFloat.eqb x PrimFloat.zero = false
              /\ PrimFloat.ltb x PrimFloat.zero = false).
  { unfold PrimFloat.is_nan.
    rewrite FloatAxioms.ltb_spec in Hpos.
    rewrite !FloatAxioms.eqb_spec, FloatAxioms.ltb_spec.
    change (Prim2SF PrimFloat.zero) with (S754_zero false) in *.
    destruct (Prim2SF x) as [s|s| |s m e]; try discriminate Hpos;
      destruct s; try discriminate Hpos; repeat split; try reflexivity.
    all: cbn; rewrite ?Pos.compare_refl, ?Z.compare_refl; reflexivity. }
  destruct H as (-> & -> & ->). rewrite Hinf, Hone. reflexivity.
Qed.

End FloatFacts.

(** ** The operators on operands that convert to float *)

Section FloatOperands.

Implicit Types (a b : num) (x y : float).

Lemma as_double_float x : Py.as_double (PyFloat x) = Ok x.
Proof. reflexivity. Qed.

Lemma float_binop_ok op a b x y :
  Py.as_double a = Ok x -> Py.as_double b = Ok y ->
  Py.float_binop op a b = Ok (PyFloat (op x y)).
Proof.
  intros Ha Hb. unfold Py.float_binop. rewrite Ha; simpl. rewrite Hb. reflexivity.
Qed.

Lemma mul_float_l x b y :
  Py.as_double b = Ok y -> Py.mul (PyFloat x) b = Ok (PyFloat (PrimFloat.mul x y)).
Proof.
  intros Hb. destruct b; exact (float_binop_ok _ (PyFloat x) _ x y (as_double_float x) Hb).
Qed.

Lemma mul_float_r a x y :
  Py.as_double a = Ok x -> Py.mul a (PyFloat y) = Ok (PyFloat (PrimFloat.mul x y)).
Proof.
  intros Ha. destruct a; exact (float_binop_ok _ _ (PyFloat y) x y Ha (as_double_float y)).
Qed.

Lemma add_float_l x b y :
  Py.as_double b = Ok y -> Py.add (PyFloat x) b = Ok (PyFloat (PrimFloat.add x y)).
Proof.
  intros Hb. destruct b; exact (float_binop_ok _ (PyFloat x) _ x y (as_double_float x) Hb).
Qed.

Lemma sub_float_l x b y :
  Py.as_double b = Ok y -> Py.sub (PyFloat x) b = Ok (PyFloat (PrimFloat.sub x y)).
Proof.
  intros Hb. destruct b; exact (float_binop_ok _ (PyFloat x) _ x y (as_double_float x) Hb).
Qed.

Lemma truediv_float_l x b y :
  Py.as_double b = Ok y -> Float.is_zero y = false ->
  Py.truediv (PyFloat x) b = Ok (PyFloat (PrimFloat.div x y)).
Proof.
  intros Hb Hy. destruct b; unfold Py.truediv; rewrite Hb; simpl; rewrite Hy; reflexivity.
Qed.

Lemma floordiv_float_l x b y :
  Py.as_double b = Ok y -> Float.is_zero y = false ->
  Py.floordiv (PyFloat x) b = Ok (PyFloat (Float.floordiv x y)).
Proof.
  intros Hb Hy. destruct b; unfold Py.floordiv; rewrite Hb; simpl; rewrite Hy; reflexivity.
Qed.

(** Python's [b == 0] forces the converted divisor to be a zero. *)
Lemma is_zero_as_double b : Py.is_zero b = true ->
  exists y, Py.as_double b = Ok y /\ Float.is_zero y = true.
Proof.
  destruct b as [z|y]; simpl; intros H.
  - apply Z.eqb_eq in H. subst z. exists PrimFloat.zero. split; reflexivity.
  - exists y. split; [reflexivity|exact H].
Qed.

Lemma truediv_float_by_zero x b :
  Py.is_zero b = true -> Py.truediv (PyFloat x) b = Raise ZeroDivisionError.
Proof.
  intros Hb. destruct (is_zero_as_double b Hb) as (y & Hy & Hz).
  destruct b; unfold Py.truediv; rewrite Hy; simpl; rewrite Hz; reflexivity.
Qed.

Lemma floordiv_float_by_zero x b :
  Py.is_zero b = true -> Py.floordiv (PyFloat x) b = Raise ZeroDivisionError.
Proof.
  intros Hb. destruct (is_zero_as_double b Hb) as (y & Hy & Hz).
  destruct b; unfold Py.floordiv; rewrite Hy; simpl; rewrite Hz; reflexivity.
Qed.

Lemma as_double_M_IN_KM : Py.as_double M_IN_KM = Ok 1000%float.
Proof. vm_compute. reflexivity. Qed.

Lemma as_double_MINUTES : Py.as_double TOTTALLY_MINUTES_IN_HOURS = Ok 60%float.
Proof. vm_compute. reflexivity. Qed.

Lemma as_double_RUN_1 : Py.as_double COEFF_CALORIE_RUN_1 = Ok 18%float.
Proof. vm_compute. reflexivity. Qed.

Lemma as_double_RUN_2 : Py.as_double COEFF_CALORIE_RUN_2 = Ok 20%float.
Proof. vm_compute. reflexivity. Qed.

Lemma as_double_SWIM_2 : Py.as_double COEFF_CALORIE_SWIM_2 = Ok 2%float.
Proof. vm_compute. reflexivity. Qed.

Lemma truediv_float_M_IN_KM x :
  Py.truediv (PyFloat x) M_IN_KM = Ok (PyFloat (PrimFloat.div x 1000)).
Proof. exact (truediv_float_l x M_IN_KM 1000%float as_double_M_IN_KM eq_refl). Qed.

(** Dividing by the constant 1000 can only fail by overflow. *)
Lemma truediv_M_IN_KM_raise a e : Py.truediv a M_IN_KM = Raise e -> e = OverflowError.
Proof.
  destruct a as [z|x].
  - unfold M_IN_KM, Py.truediv. change (1000 =? 0) with false. cbv iota.
    destruct (PrimFloat.is_infinity _); congruence.
  - rewrite truediv_float_M_IN_KM. discriminate.
Qed.

Lemma mul_raise_overflow a b e : Py.mul a b = Raise e -> e = OverflowError.
Proof.
  destruct a, b; simpl; try discriminate; unfold Py.float_binop; simpl;
    repeat match goal with
           | |- context [if ?c then _ else _] => destruct c; simpl
           end; congruence.
Qed.

End FloatOperands.

(** The distance of every variant whose action count converts to float. *)
Lemma get_distance_ok (t : Training) (fa : float) :
  Py.as_double (action t) = Ok fa ->
  get_distance t =
    Ok (PyFloat (PrimFloat.div
                   (PrimFloat.mul fa (match t with
                                      | Swimming _ _ _ _ _ => LEN_STEP_Swimming
                                      | _ => LEN_STEP_Training
                                      end)) 1000)).
Proof.
  intros Ha.
  destruct t; cbn [get_distance]; unfold Training_get_distance, Swimming_get_distance;
    cbn [LEN_STEP]; rewrite (mul_float_r _ _ _ Ha); cbn [bind];
    apply truediv_float_M_IN_KM.
Qed.

(** The base mean speed, for a duration that converts to a float other
    than zero. *)
Lemma Training_get_mean_speed_ok (t : Training) (fa fd : float) :
  Py.as_double (action t) = Ok fa ->
  Py.as_double (duration t) = Ok fd ->
  Float.is_zero fd = false ->
  Training_get_mean_speed t =
    Ok (PyFloat (PrimFloat.div
                   (PrimFloat.div
                      (PrimFloat.mul fa (match t with
                                         | Swimming _ _ _ _ _ => LEN_STEP_Swimming
                                         | _ => LEN_STEP_Training
                                         end)) 1000) fd)).
Proof.
  intros Ha Hd Hz. unfold Training_get_mean_speed.
  rewrite (get_distance_ok t fa Ha). cbn [bind].
  exact (truediv_float_l _ _ _ Hd Hz).
Qed.

(** C2 (amended). For every Running instance whose three fields convert to
    float (a float, or an int within the float range) and whose duration is
    not zero, the distance is action*0.65/1000, the mean speed is the
    distance over the duration, and get_spent_calories returns
    (18*speed - 20)*weight/1000*duration*60, every operation being the
    binary64 one, in the order written. *)
Theorem Running_calories_formula (a d w : num) (fa fd fw : float) :
  Py.as_double a = Ok fa ->
  Py.as_double d = Ok fd ->
  Py.as_double w = Ok fw ->
  Float.is_zero fd = false ->
  get_distance (Running a d w)
    = Ok (PyFloat (fa * LEN_STEP_Training / 1000)%float)
  /\ get_mean_speed (Running a d w)
    = Ok (PyFloat (fa * LEN_STEP_Training / 1000 / fd)%float)
  /\ get_spent_calories (Running a d w)
    = Ok (PyFloat ((18 * (fa * LEN_STEP_Training / 1000 / fd) - 20)
                   * fw / 1000 * fd * 60)%float).
Proof.
  intros Ha Hd Hw Hz.
  pose proof (get_distance_ok (Running a d w) fa Ha) as Hdist.
  pose proof (Training_get_mean_speed_ok (Running a d w) fa fd Ha Hd Hz) as Hspeed.
  split; [exact Hdist|]. split; [exact Hspeed|].
  cbn [get_spent_calories get_spent_calories_on]. unfold Running_get_spent_calories.
  cbn [get_mean_speed]. rewrite Hspeed. cbn [bind weight duration].
  rewrite (mul_float_r _ _ _ as_double_RUN_1). cbn [bind].
  rewrite (sub_float_l _ _ _ as_double_RUN_2). cbn [bind].
  rewrite (mul_float_l _ _ _ Hw). cbn [bind].
  rewrite truediv_float_M_IN_KM. cbn [bind].
  rewrite (mul_float_l _ _ _ Hd). cbn [bind].
  exact (mul_float_l _ _ _ as_double_MINUTES).
Qed.

(** Running(15000, 1, 75): 9.75 km, 9.75 km/h, and the calories of the
    tabulated formula. *)
Lemma Running_calories_formula_witness :
  let r := Running (PyInt 15000) (PyInt 1) (PyInt 75) in
  get_distance r = Ok (PyFloat 9.75%float)
  /\ get_mean_speed r = Ok (PyFloat 9.75%float)
  /\ get_spent_calories r = Ok (PyFloat ((18 * 9.75 - 20) * 75 / 1000 * 1 * 60)%float).
Proof.
  exact (Running_calories_formula (PyInt 15000) (PyInt 1) (PyInt 75)
           15000%float 1%float 75%float eq_refl eq_refl eq_refl eq_refl).
Defined.

(** C2, as stated, fails on an action count outside the float range: the
    duration is not zero and no number is returned. *)
Lemma Running_calories_overflow :
  Py.is_zero (PyInt 1) = false
  /\ get_spent_calories (Running (PyInt (10 ^ 400)) (PyInt 1) (PyInt 75))
     = Raise OverflowError.
Proof. split; vm_compute; reflexivity. Qed.

(** C1 (amended). For every SportsWalking instance whose four fields
    convert to float (a float, or an int within the float range), with a
    height and a duration that are not zero, and whose mean speed
    speed = action*0.65/1000/duration is squared by [speed ** 2] without
    overflow, get_spent_calories returns
    (0.035*weight + (speed ** 2 // height)*0.029*weight)*duration*60,
    where [speed ** 2] is the float the C library's pow gives (the
    rounded product speed*speed or, by library, a float next to it),
    [//] is Python's float floor division and not the true division, and
    every other operation is the binary64 one in the order written.
    This holds whatever the C library's pow is. *)
Theorem SportsWalking_calories_formula (libm_pow2 : float -> float)
  (a d w h : num) (fa fd fw fh squared : float) :
  Py.as_double a = Ok fa ->
  Py.as_double d = Ok fd ->
  Py.as_double w = Ok fw ->
  Py.as_double h = Ok fh ->
  Float.is_zero fd = false ->
  Float.is_zero fh = false ->
  let speed := (fa * LEN_STEP_Training / 1000 / fd)%float in
  Py.pow_on libm_pow2 (PyFloat speed) COEFF_CALORIE_WALK_3 = Ok (PyFloat squared) ->
  get_spent_calories_on libm_pow2 (SportsWalking a d w h)
    = Ok (PyFloat ((COEFF_CALORIE_WALK_1 * fw
                    + Float.floordiv squared fh * COEFF_CALORIE_WALK_2 * fw)
                   * fd * 60)%float).
Proof.
  intros Ha Hd Hw Hh Hzd Hzh speed Hsq.
  cbn [get_spent_calories_on]. unfold SportsWalking_get_spent_calories_on.
  cbn [weight duration get_mean_speed].
  rewrite (mul_float_l _ _ _ Hw). cbn [bind].
  rewrite (Training_get_mean_speed_ok (SportsWalking a d w h) fa fd Ha Hd Hzd).
  cbn [bind]. fold speed. rewrite Hsq. cbn [bind].
  rewrite (floordiv_float_l _ _ _ Hh Hzh). cbn [bind].
  rewrite (mul_float_l _ _ _ (as_double_float COEFF_CALORIE_WALK_2)). cbn [bind].
  rewrite (mul_float_l _ _ _ Hw). cbn [bind].
  rewrite (add_float_l _ _ _ (as_double_float _)). cbn [bind].
  rewrite (mul_float_l _ _ _ Hd). cbn [bind].
  exact (mul_float_l _ _ _ as_double_MINUTES).
Qed.

(** SportsWalking(9000, 1, 75, 180): the speed is 5.850 km/h, its square
    is below the height, so the floor-divided term is 0 and the calories
    are 0.035*75*1*60, on a library that returns the rounded product as
    on one that returns the float below or above it; a true division
    would have given another number. *)
Lemma SportsWalking_calories_formula_witness :
  let speed := (9000 * LEN_STEP_Training / 1000 / 1)%float in
  let walk := SportsWalking (PyInt 9000) (PyInt 1) (PyInt 75) (PyInt 180) in
  let calories :=
    PyFloat ((COEFF_CALORIE_WALK_1 * 75 + 0 * COEFF_CALORIE_WALK_2 * 75) * 1 * 60)%float in
  get_spent_calories_on Float.rounded_square walk = Ok calories
  /\ get_spent_calories_on (fun x => PrimFloat.next_down (x * x)) walk = Ok calories
  /\ get_spent_calories_on (fun x => PrimFloat.next_up (x * x)) walk = Ok calories
  /\ Fmt.float_3f speed = "5.850"%string
  /\ Float.floordiv (speed * speed) 180 = 0%float
  /\ PrimFloat.eqb (speed * speed / 180)%float 0%float = false.
Proof.
  split; [|split; [|split; [|repeat split; vm_compute; reflexivity]]].
  - exact (SportsWalking_calories_formula Float.rounded_square
             (PyInt 9000) (PyInt 1) (PyInt 75) (PyInt 180)
             9000%float 1%float 75%float 180%float _
             eq_refl eq_refl eq_refl eq_refl eq_refl eq_refl eq_refl).
  - exact (SportsWalking_calories_formula (fun x => PrimFloat.next_down (x * x))
             (PyInt 9000) (PyInt 1) (PyInt 75) (PyInt 180)
             9000%float 1%float 75%float 180%float _
             eq_refl eq_refl eq_refl eq_refl eq_refl eq_refl eq_refl).
  - exact (SportsWalking_calories_formula (fun x => PrimFloat.next_up (x * x))
             (PyInt 9000) (PyInt 1) (PyInt 75) (PyInt 180)
             9000%float 1%float 75%float 180%float _
             eq_refl eq_refl eq_refl eq_refl eq_refl eq_refl eq_refl).
Defined.

(** The last bit of the square can decide the result.  With 5881 steps in
    one hour the rounded product speed*speed is the float
    0x1.d39ada82eddb9p+3; at a height of exactly that many centimetres the
    floor-divided term is 1 on a library that returns the rounded product
    and 0 on one that returns the float below it. *)
Lemma SportsWalking_calories_last_bit :
  let height := PyFloat 0x1.d39ada82eddb9p+3%float in
  let walk := SportsWalking (PyInt 5881) (PyInt 1) (PyInt 75) height in
  get_spent_calories_on Float.rounded_square walk
    = Ok (PyFloat ((COEFF_CALORIE_WALK_1 * 75 + 1 * COEFF_CALORIE_WALK_2 * 75) * 1 * 60)%float)
  /\ get_spent_calories_on (fun x => PrimFloat.next_down (x * x)) walk
     = Ok (PyFloat ((COEFF_CALORIE_WALK_1 * 75 + 0 * COEFF_CALORIE_WALK_2 * 75) * 1 * 60)%float)
  /\ Fmt.float_3f ((COEFF_CALORIE_WALK_1 * 75 + 1 * COEFF_CALORIE_WALK_2 * 75) * 1 * 60)%float
     = "288.000"%string
  /\ Fmt.float_3f ((COEFF_CALORIE_WALK_1 * 75 + 0 * COEFF_CALORIE_WALK_2 * 75) * 1 * 60)%float
     = "157.500"%string.
Proof. repeat split; vm_compute; reflexivity. Qed.

(** C1, as stated, fails where the speed is too large to be squared:
    height and duration are not zero, and [**] raises.  It fails on every
    C library where the action count is outside the float range. *)
Lemma SportsWalking_calories_overflow :
  Py.is_zero (PyInt 1) = false
  /\ Py.is_zero (PyInt 180) = false
  /\ get_spent_calories (SportsWalking (PyInt (10 ^ 200)) (PyInt 1) (PyInt 75) (PyInt 180))
     = Raise OverflowError
  /\ (forall libm_pow2 : float -> float,
        get_spent_calories_on libm_pow2
          (SportsWalking (PyInt (10 ^ 400)) (PyInt 1) (PyInt 75) (PyInt 180))
        = Raise OverflowError).
Proof.
  split; [reflexivity|]. split; [reflexivity|]. split; [vm_compute; reflexivity|].
  intros libm_pow2. vm_compute. reflexivity.
Qed.

(** C3 (amended). For every Swimming instance whose action, duration and
    weight convert to float, with a duration that is not zero, and whose
    pool lengths length_pool*count_pool/1000 evaluate to a number [km]:
    the distance is action*1.38/1000 (its own step), the mean speed is
    km/duration, and the calories are (speed + 1.1)*2*weight. *)
Theorem Swimming_formulas (a d w l c total : num) (fa fd fw km : float) :
  Py.as_double a = Ok fa ->
  Py.as_double d = Ok fd ->
  Py.as_double w = Ok fw ->
  Float.is_zero fd = false ->
  Py.mul l c = Ok total ->
  Py.truediv total M_IN_KM = Ok (PyFloat km) ->
  get_distance (Swimming a d w l c)
    = Ok (PyFloat (fa * LEN_STEP_Swimming / 1000)%float)
  /\ get_mean_speed (Swimming a d w l c) = Ok (PyFloat (km / fd)%float)
  /\ get_spent_calories (Swimming a d w l c)
    = Ok (PyFloat ((km / fd + COEFF_CALORIE_SWIM_1) * 2 * fw)%float).
Proof.
  intros Ha Hd Hw Hz Hmul Hkm.
  assert (Hspeed : get_mean_speed (Swimming a d w l c) = Ok (PyFloat (km / fd)%float)).
  { cbn [get_mean_speed]. unfold Swimming_get_mean_speed.
    rewrite Hmul. cbn [bind]. rewrite Hkm. cbn [bind duration].
    exact (truediv_float_l _ _ _ Hd Hz). }
  split; [exact (get_distance_ok (Swimming a d w l c) fa Ha)|].
  split; [exact Hspeed|].
  cbn [get_spent_calories get_spent_calories_on]. unfold Swimming_get_spent_calories.
  rewrite Hspeed. cbn [bind weight].
  rewrite (add_float_l _ _ _ (as_double_float _)). cbn [bind].
  rewrite (mul_float_l _ _ _ as_double_SWIM_2). cbn [bind].
  exact (mul_float_l _ _ _ Hw).
Qed.

(** Swimming(720, 1, 80, 25, 40): 0.994 km to three decimals, 1.0 km/h and
    336.0 kcal. *)
Lemma Swimming_formulas_witness :
  let s := Swimming (PyInt 720) (PyInt 1) (PyInt 80) (PyInt 25) (PyInt 40) in
  (get_distance s = Ok (PyFloat (720 * LEN_STEP_Swimming / 1000)%float)
   /\ get_mean_speed s = Ok (PyFloat 1%float)
   /\ get_spent_calories s = Ok (PyFloat 336%float))
  /\ Fmt.float_3f (720 * LEN_STEP_Swimming / 1000)%float = "0.994"%string.
Proof.
  split; [|vm_compute; reflexivity].
  exact (Swimming_formulas (PyInt 720) (PyInt 1) (PyInt 80) (PyInt 25) (PyInt 40)
           (PyInt 1000) 720%float 1%float 80%float 1%float
           eq_refl eq_refl eq_refl eq_refl eq_refl eq_refl).
Defined.

(** When one of the two pool fields is a float, the pool lengths are the
    float product over 1000. *)
Lemma pool_km_float (l c : num) (fl fc : float) :
  Py.as_double l = Ok fl ->
  Py.as_double c = Ok fc ->
  (forall x y, l = PyInt x -> c = PyInt y -> False) ->
  exists total, Py.mul l c = Ok total
    /\ Py.truediv total M_IN_KM = Ok (PyFloat (fl * fc / 1000)%float).
Proof.
  intros Hl Hc Hmixed. exists (PyFloat (fl * fc)%float). split.
  - destruct l as [x|x], c as [y|y].
    + exfalso. exact (Hmixed x y eq_refl eq_refl).
    + exact (float_binop_ok _ _ _ _ _ Hl Hc).
    + exact (float_binop_ok _ _ _ _ _ Hl Hc).
    + exact (float_binop_ok _ _ _ _ _ Hl Hc).
  - apply truediv_float_M_IN_KM.
Qed.

(** When both pool fields are ints, the product is exact and the pool
    lengths are its correctly rounded quotient by 1000. *)
Lemma pool_km_int (x y : Z) :
  PrimFloat.is_infinity (Float.of_quotient (x * y) 1000) = false ->
  Py.mul (PyInt x) (PyInt y) = Ok (PyInt (x * y))
  /\ Py.truediv (PyInt (x * y)) M_IN_KM = Ok (PyFloat (Float.of_quotient (x * y) 1000)).
Proof.
  intros Hfin. split; [reflexivity|].
  unfold M_IN_KM, Py.truediv. change (1000 =? 0) with false. cbv iota.
  rewrite Hfin. reflexivity.
Qed.

(** C3, as stated, fails on a stroke count outside the float range: the
    duration is not zero and [get_distance] returns no number. *)
Lemma Swimming_distance_overflow :
  Py.is_zero (PyInt 1) = false
  /\ get_distance (Swimming (PyInt (10 ^ 400)) (PyInt 1) (PyInt 80) (PyInt 25) (PyInt 40))
     = Raise OverflowError.
Proof. split; vm_compute; reflexivity. Qed.

(** ** A duration or a height of zero *)

Lemma mean_speed_dividend_raise (t : Training) (e : exn) :
  mean_speed_dividend t = Raise e -> e = OverflowError.
Proof.
  assert (Hdist : forall t', get_distance t' = Raise e -> e = OverflowError).
  { intros t' H.
    assert (H' : (let? steps := Py.mul (action t') (LEN_STEP t') in
                  Py.truediv steps M_IN_KM) = Raise e) by (destruct t'; exact H).
    destruct (bind_raise _ _ _ H') as [H1|(x & _ & H1)].
    - exact (mul_raise_overflow _ _ _ H1).
    - exact (truediv_M_IN_KM_raise _ _ H1). }
  destruct t; cbn [mean_speed_dividend]; try apply Hdist.
  intros H. destruct (bind_raise _ _ _ H) as [H1|(x & _ & H1)].
  - exact (mul_raise_overflow _ _ _ H1).
  - exact (truediv_M_IN_KM_raise _ _ H1).
Qed.

Lemma get_mean_speed_dividend (t : Training) :
  get_mean_speed t = let? km := mean_speed_dividend t in Py.truediv km (duration t).
Proof.
  destruct t; cbn [get_mean_speed mean_speed_dividend duration];
    unfold Training_get_mean_speed, Swimming_get_mean_speed; cbn [duration]; try reflexivity.
  destruct (Py.mul length_pool count_pool); reflexivity.
Qed.

Lemma mean_speed_dividend_float (t : Training) (x : num) :
  mean_speed_dividend t = Ok x -> exists f, x = PyFloat f.
Proof.
  assert (Hdist : forall t', get_distance t' = Ok x -> exists f, x = PyFloat f).
  { intros t' H.
    assert (H' : (let? steps := Py.mul (action t') (LEN_STEP t') in
                  Py.truediv steps M_IN_KM) = Ok x) by (destruct t'; exact H).
    destruct (Py.mul (action t') (LEN_STEP t')); [|discriminate].
    exact (truediv_ok_float _ _ _ H'). }
  destruct t; cbn [mean_speed_dividend]; try apply Hdist.
  intros H. destruct (Py.mul length_pool count_pool); [|discriminate].
  exact (truediv_ok_float _ _ _ H).
Qed.

(** C8 (amended). With a duration equal to zero, no variant ever gets a
    mean speed or a summary: get_mean_speed raises ZeroDivisionError
    whenever its dividend (the distance, or Swimming's pool lengths in km)
    can be computed, and otherwise the OverflowError of that dividend;
    the summary raises ZeroDivisionError whenever the distance and the
    dividend can be computed. *)
Theorem zero_duration_mean_speed (t : Training) :
  Py.is_zero (duration t) = true ->
  (forall x, mean_speed_dividend t = Ok x ->
             get_mean_speed t = Raise ZeroDivisionError)
  /\ (forall e, mean_speed_dividend t = Raise e ->
                get_mean_speed t = Raise e /\ e = OverflowError)
  /\ is_ok (get_mean_speed t) = false
  /\ is_ok (show_training_info t) = false
  /\ (forall x y, get_distance t = Ok x -> mean_speed_dividend t = Ok y ->
                  show_training_info t = Raise ZeroDivisionError).
Proof.
  intros Hzero.
  assert (Hok : forall x, mean_speed_dividend t = Ok x ->
                          get_mean_speed t = Raise ZeroDivisionError).
  { intros x Hx. rewrite get_mean_speed_dividend, Hx. cbn [bind].
    destruct (mean_speed_dividend_float t x Hx) as [f ->].
    exact (truediv_float_by_zero f _ Hzero). }
  assert (Herr : forall e, mean_speed_dividend t = Raise e ->
                           get_mean_speed t = Raise e /\ e = OverflowError).
  { intros e He. split.
    - rewrite get_mean_speed_dividend, He. reflexivity.
    - exact (mean_speed_dividend_raise t e He). }
  assert (Hnone : is_ok (get_mean_speed t) = false).
  { destruct (mean_speed_dividend t) as [x|e] eqn:Hdiv.
    - rewrite (Hok x eq_refl). reflexivity.
    - destruct (Herr e eq_refl) as [-> _]. reflexivity. }
  split; [exact Hok|]. split; [exact Herr|]. split; [exact Hnone|]. split.
  - unfold show_training_info.
    destruct (get_distance t); cbn [bind]; [|reflexivity].
    destruct (get_mean_speed t); [discriminate|reflexivity].
  - intros x y Hx Hy. unfold show_training_info.
    rewrite Hx. cbn [bind]. rewrite (Hok y Hy). reflexivity.
Qed.

Lemma zero_duration_mean_speed_witness :
  get_mean_speed (Running (PyInt 15000) (PyInt 0) (PyInt 75)) = Raise ZeroDivisionError
  /\ get_mean_speed (Swimming (PyInt 720) (PyFloat 0) (PyInt 80) (PyInt 25) (PyInt 40))
     = Raise ZeroDivisionError.
Proof.
  split.
  - apply (proj1 (zero_duration_mean_speed
                    (Running (PyInt 15000) (PyInt 0) (PyInt 75)) eq_refl)
             (PyFloat 9.75%float)).
    vm_compute. reflexivity.
  - apply (proj1 (zero_duration_mean_speed
                    (Swimming (PyInt 720) (PyFloat 0) (PyInt 80) (PyInt 25) (PyInt 40))
                    eq_refl)
             (PyFloat 1%float)).
    vm_compute. reflexivity.
Defined.

(** C8, as stated, fails on an action count outside the float range: the
    duration is zero and the error is not a division by zero. *)
Lemma zero_duration_overflow :
  Py.is_zero (PyInt 0) = true
  /\ get_mean_speed (Running (PyInt (10 ^ 400)) (PyInt 0) (PyInt 75)) = Raise OverflowError.
Proof. split; vm_compute; reflexivity. Qed.

(** A height equal to zero on any C library: no number is returned, and
    once [speed ** 2] has given a number the error is the
    ZeroDivisionError of the floor division. *)
Lemma zero_height_on (libm_pow2 : float -> float) (a d w h : num) :
  Py.is_zero h = true ->
  is_ok (get_spent_calories_on libm_pow2 (SportsWalking a d w h)) = false
  /\ (forall fw speed squared,
        Py.as_double w = Ok fw ->
        get_mean_speed (SportsWalking a d w h) = Ok (PyFloat speed) ->
        Py.pow_on libm_pow2 (PyFloat speed) COEFF_CALORIE_WALK_3 = Ok squared ->
        get_spent_calories_on libm_pow2 (SportsWalking a d w h) = Raise ZeroDivisionError).
Proof.
  intros Hzero.
  assert (Hdiv : forall squared, is_ok (Py.floordiv squared h) = false).
  { intros [z|x].
    - destruct h as [y|y]; cbn [Py.is_zero] in Hzero.
      + cbn [Py.floordiv]. rewrite Hzero. reflexivity.
      + unfold Py.floordiv.
        destruct (Py.as_double (PyInt z)); cbn [bind Py.as_double]; [|reflexivity].
        rewrite Hzero. reflexivity.
    - rewrite (floordiv_float_by_zero x h Hzero). reflexivity. }
  split.
  - cbn [get_spent_calories_on]. unfold SportsWalking_get_spent_calories_on.
    destruct (Py.mul _ _); cbn [bind]; [|reflexivity].
    destruct (get_mean_speed _) as [speed|]; cbn [bind]; [|reflexivity].
    destruct (Py.pow_on _ _ _) as [squared|]; cbn [bind]; [|reflexivity].
    specialize (Hdiv squared).
    destruct (Py.floordiv squared h); [discriminate|reflexivity].
  - intros fw speed squared Hw Hspeed Hsq.
    cbn [get_spent_calories_on]. unfold SportsWalking_get_spent_calories_on.
    cbn [weight]. rewrite (mul_float_l _ _ _ Hw). cbn [bind].
    rewrite Hspeed. cbn [bind]. rewrite Hsq. cbn [bind].
    unfold COEFF_CALORIE_WALK_3 in Hsq. cbn [Py.pow_on] in Hsq.
    destruct (Float.pow2_on libm_pow2 speed) as [x|]; cbn [bind] in Hsq; [|discriminate].
    injection Hsq as <-.
    rewrite (floordiv_float_by_zero x h Hzero). reflexivity.
Qed.

(** C10 (amended). With a height equal to zero, SportsWalking's
    get_spent_calories never returns a number; it raises
    ZeroDivisionError, from the floor division by the height, whenever the
    weight converts to float, the mean speed is computed and its square is
    within the float range. *)
Theorem SportsWalking_zero_height (a d w h : num) :
  Py.is_zero h = true ->
  is_ok (get_spent_calories (SportsWalking a d w h)) = false
  /\ (forall fw speed,
        Py.as_double w = Ok fw ->
        get_mean_speed (SportsWalking a d w h) = Ok (PyFloat speed) ->
        PrimFloat.is_infinity (speed * speed)%float = false ->
        get_spent_calories (SportsWalking a d w h) = Raise ZeroDivisionError).
Proof.
  intros Hzero.
  destruct (zero_height_on Float.rounded_square a d w h Hzero) as [Hnever Hraise].
  split; [exact Hnever|].
  intros fw speed Hw Hspeed Hsq.
  apply (Hraise fw speed (PyFloat (speed * speed)%float) Hw Hspeed).
  unfold COEFF_CALORIE_WALK_3. cbn [Py.pow_on].
  change (Float.pow2_on Float.rounded_square speed) with (Float.pow2 speed).
  rewrite (pow2_square speed Hsq). reflexivity.
Qed.

Lemma SportsWalking_zero_height_witness :
  get_spent_calories (SportsWalking (PyInt 9000) (PyInt 1) (PyInt 75) (PyInt 0))
  = Raise ZeroDivisionError.
Proof.
  apply (proj2 (SportsWalking_zero_height
                  (PyInt 9000) (PyInt 1) (PyInt 75) (PyInt 0) eq_refl)
           75%float (9000 * LEN_STEP_Training / 1000 / 1)%float);
    vm_compute; reflexivity.
Defined.

(** C10, as stated, fails where the speed is too large to be squared:
    the height is zero, the duration is not, and the error is the
    OverflowError of [**], raised before the floor division. *)
Lemma SportsWalking_zero_height_overflow :
  Py.is_zero (PyInt 0) = true
  /\ Py.is_zero (PyInt 1) = false
  /\ get_spent_calories (SportsWalking (PyInt (10 ^ 200)) (PyInt 1) (PyInt 75) (PyInt 0))
     = Raise OverflowError.
Proof. repeat split; vm_compute; reflexivity. Qed.

(** ** The report message *)

Section Rendering.

Lemma getitem_asdict (m : InfoMessage.t) (name : string) :
  Fmt.getitem (InfoMessage.asdict m) name = InfoMessage.field m name.
Proof.
  unfold Fmt.getitem, InfoMessage.asdict, InfoMessage.field.
  repeat match goal with
         | |- context [String.eqb name ?k] =>
             destruct (String.eqb_spec name k) as [->|?];
             [ rewrite lookup_insert_eq; reflexivity
             | rewrite lookup_insert_ne by congruence ]
         end.
  rewrite lookup_empty. reflexivity.
Qed.

(** The scanner sees its arguments only through the names it looks up. *)
Lemma scan_ext (r1 r2 : string -> result Fmt.value) :
  (forall k, r1 k = r2 k) ->
  forall template st, Fmt.scan st template r1 = Fmt.scan st template r2.
Proof.
  intros Hr. induction template as [|c rest IH]; intros st; [reflexivity|].
  cbn [Fmt.scan].
  destruct st; rewrite ?IH, ?Hr; reflexivity.
Qed.

(** The message of an [InfoMessage] built with the default template,
    for fields that convert to float. *)
Lemma get_message_rendered (label : string) (d di s c : num) (fd fdi fs fc : float) :
  Py.as_double d = Ok fd ->
  Py.as_double di = Ok fdi ->
  Py.as_double s = Ok fs ->
  Py.as_double c = Ok fc ->
  InfoMessage.get_message (InfoMessage.make label d di s c)
  = Ok ("Тип тренировки: " +:+ label
        +:+ "; Длительность: " +:+ Fmt.float_3f fd
        +:+ " ч.; Дистанция: " +:+ Fmt.float_3f fdi
        +:+ " км; Ср. скорость: " +:+ Fmt.float_3f fs
        +:+ " км/ч; Потрачено ккал: " +:+ Fmt.float_3f fc +:+ ".").
Proof.
  intros Hd Hdi Hs Hc.
  unfold InfoMessage.get_message, Fmt.format.
  rewrite (scan_ext _ _ (getitem_asdict _)).
  cbv -[Fmt.float_3f String.append Py.as_double].
  rewrite Hd, Hdi, Hs, Hc.
  reflexivity.
Qed.

Lemma digit_is_digit (d : Z) : 0 <= d <= 9 -> is_digit (Fmt.digit d).
Proof.
  intros Hd.
  assert (H : d = 0 \/ d = 1 \/ d = 2 \/ d = 3 \/ d = 4 \/ d = 5
              \/ d = 6 \/ d = 7 \/ d = 8 \/ d = 9) by lia.
  unfold is_digit.
  repeat (destruct H as [->|H]; [vm_compute; split; discriminate|]).
  subst d. vm_compute; split; discriminate.
Qed.

Lemma string_of_uint_digits (u : Decimal.uint) :
  all_digits (NilEmpty.string_of_uint u).
Proof.
  induction u; cbn [NilEmpty.string_of_uint all_digits];
    try exact I; (split; [vm_compute; split; discriminate|assumption]).
Qed.

Lemma decimal_digits (n : Z) :
  Fmt.decimal n <> EmptyString /\ all_digits (Fmt.decimal n).
Proof.
  unfold Fmt.decimal, NilZero.string_of_uint.
  pose proof (string_of_uint_digits (N.to_uint (Z.to_N n))) as Hall.
  destruct (N.to_uint (Z.to_N n)); cbn [NilEmpty.string_of_uint] in *;
    (split; [discriminate|]); try exact Hall.
  split; [vm_compute; split; discriminate|exact I].
Qed.

Lemma fixed3_three_decimals (negative : bool) (n : Z) :
  three_decimals (Fmt.sign_prefix negative (Fmt.fixed3 n)).
Proof.
  unfold Fmt.fixed3.
  assert (Hr : 0 <= n mod 1000 < 1000) by (apply Z.mod_pos_bound; lia).
  exists negative, (Fmt.decimal (n / 1000)),
    (Fmt.digit (n mod 1000 / 100)), (Fmt.digit (n mod 1000 / 10 mod 10)),
    (Fmt.digit (n mod 1000 mod 10)).
  destruct (decimal_digits (n / 1000)) as [Hne Hall].
  split; [reflexivity|]. split; [exact Hne|]. split; [exact Hall|].
  split; [|split]; apply digit_is_digit; Z.div_mod_to_equations; lia.
Qed.

Lemma float_3f_three_decimals (x : float) :
  finite x = true -> three_decimals (Fmt.float_3f x).
Proof.
  unfold finite, Fmt.float_3f.
  destruct (Prim2SF x); try discriminate; intros _; apply fixed3_three_decimals.
Qed.

End Rendering.

Lemma float_3f_not_finite (x : float) :
  finite x = false ->
  Fmt.float_3f x = "inf"%string \/ Fmt.float_3f x = "-inf"%string
  \/ Fmt.float_3f x = "nan"%string.
Proof.
  unfold finite, Fmt.float_3f.
  destruct (Prim2SF x) as [s|s| |s m e]; try discriminate; intros _.
  - destruct s; [right; left|left]; reflexivity.
  - right; right; reflexivity.
Qed.

Lemma inf_not_three_decimals : ~ three_decimals "inf".
Proof.
  intros (negative & whole & d1 & d2 & d3 & Heq & Hne & Hall & _).
  destruct negative; cbn [Fmt.sign_prefix] in Heq; [discriminate|].
  destruct whole as [|c rest]; [congruence|].
  cbn [String.append] in Heq. injection Heq as Hc _. subst c.
  destruct Hall as [[_ Hi] _]. vm_compute in Hi. apply Hi. reflexivity.
Qed.

(** C5 (amended). For every InfoMessage built from a label and four
    numbers that convert to float, get_message returns the fixed template
    with the label substituted as it is and each number rendered by
    [format(x, '.3f')]; a number that is finite is rendered with a period
    and exactly three decimals, an infinity or a NaN as inf, -inf or nan. *)
Theorem get_message_template (label : string) (d di s c : num) (fd fdi fs fc : float) :
  Py.as_double d = Ok fd ->
  Py.as_double di = Ok fdi ->
  Py.as_double s = Ok fs ->
  Py.as_double c = Ok fc ->
  InfoMessage.get_message (InfoMessage.make label d di s c)
  = Ok ("Тип тренировки: " +:+ label
        +:+ "; Длительность: " +:+ Fmt.float_3f fd
        +:+ " ч.; Дистанция: " +:+ Fmt.float_3f fdi
        +:+ " км; Ср. скорость: " +:+ Fmt.float_3f fs
        +:+ " км/ч; Потрачено ккал: " +:+ Fmt.float_3f fc +:+ ".")
  /\ (forall x : float, finite x = true -> three_decimals (Fmt.float_3f x))
  /\ (forall x : float, finite x = false ->
        Fmt.float_3f x = "inf"%string \/ Fmt.float_3f x = "-inf"%string
        \/ Fmt.float_3f x = "nan"%string).
Proof.
  intros Hd Hdi Hs Hc. split; [|split].
  - exact (get_message_rendered label d di s c fd fdi fs fc Hd Hdi Hs Hc).
  - exact float_3f_three_decimals.
  - exact float_3f_not_finite.
Qed.

(** The message of the driver's swimming session. *)
Lemma get_message_template_witness :
  InfoMessage.get_message
    (InfoMessage.make "Swimming" (PyInt 1)
       (PyFloat (720 * LEN_STEP_Swimming / 1000)%float) (PyFloat 1) (PyFloat 336))
  = Ok "Тип тренировки: Swimming; Длительность: 1.000 ч.; Дистанция: 0.994 км; Ср. скорость: 1.000 км/ч; Потрачено ккал: 336.000.".
Proof.
  exact (proj1 (get_message_template "Swimming" (PyInt 1)
                  (PyFloat (720 * LEN_STEP_Swimming / 1000)%float) (PyFloat 1) (PyFloat 336)
                  1%float (720 * LEN_STEP_Swimming / 1000)%float 1%float 336%float
                  eq_refl eq_refl eq_refl eq_refl)).
Defined.

(** C5, as stated, fails on a field that is an infinity: it is rendered
    by name, without a period or decimals. *)
Lemma get_message_infinity :
  InfoMessage.get_message
    (InfoMessage.make "Running" (PyFloat 1) (PyFloat PrimFloat.infinity)
       (PyFloat PrimFloat.infinity) (PyFloat PrimFloat.infinity))
  = Ok "Тип тренировки: Running; Длительность: 1.000 ч.; Дистанция: inf км; Ср. скорость: inf км/ч; Потрачено ккал: inf."
  /\ Fmt.float_3f PrimFloat.infinity = "inf"%string
  /\ ~ three_decimals (Fmt.float_3f PrimFloat.infinity).
Proof.
  split; [vm_compute; reflexivity|]. split; [vm_compute; reflexivity|].
  change (Fmt.float_3f PrimFloat.infinity) with "inf"%string.
  exact inf_not_three_decimals.
Qed.

(** ** Distance against the action count *)

(** The float operations are the IEEE 754 ones ([SpecFloat]): the exact
    result rounded to 53 bits, ties to even.  The sections below read
    that rounding off [binary_round_aux], bound the product
    [count * step] and its quotient by 1000, and conclude that the
    distance of a count is strictly below the distance of the next
    count. *)

Section RoundingAux.

Lemma digits2_pos_bounds (p : positive) :
  2 ^ (Z.pos (digits2_pos p) - 1) <= Z.pos p < 2 ^ Z.pos (digits2_pos p).
Proof.
  induction p as [p IH|p IH|]; cbn [digits2_pos]; [| |split; reflexivity].
  - rewrite Pos2Z.inj_succ. replace (Z.succ (Z.pos (digits2_pos p)) - 1)
      with (Z.succ (Z.pos (digits2_pos p) - 1)) by lia.
    rewrite !Z.pow_succ_r by lia. lia.
  - rewrite Pos2Z.inj_succ. replace (Z.succ (Z.pos (digits2_pos p)) - 1)
      with (Z.succ (Z.pos (digits2_pos p) - 1)) by lia.
    rewrite !Z.pow_succ_r by lia. lia.
Qed.

Lemma digits2_pos_unique (p : positive) (d : Z) :
  2 ^ (d - 1) <= Z.pos p < 2 ^ d -> Z.pos (digits2_pos p) = d.
Proof.
  intros [Hlo Hhi]. pose proof (digits2_pos_bounds p) as [Hlo' Hhi'].
  assert (Hd : 0 < d).
  { destruct (Z.lt_ge_cases 0 d) as [H|H]; [exact H|].
    destruct (Z.eq_dec d 0) as [->|Hne]; [cbn in Hhi; lia|].
    rewrite Z.pow_neg_r in Hhi by lia. lia. }
  destruct (Z.lt_trichotomy (Z.pos (digits2_pos p)) d) as [H|[H|H]]; [|exact H|].
  - assert (2 ^ Z.pos (digits2_pos p) <= 2 ^ (d - 1)) by (apply Z.pow_le_mono_r; lia). lia.
  - assert (2 ^ d <= 2 ^ (Z.pos (digits2_pos p) - 1)) by (apply Z.pow_le_mono_r; lia). lia.
Qed.

Lemma location_of_record (mrs : shr_record) (r n : Z) :
  loc_of_shr_record mrs = location_of r n ->
  orb (shr_r mrs) (shr_s mrs) = negb (r =? 0).
Proof.
  unfold location_of. destruct mrs as [m [|] [|]]; cbn;
    destruct (r =? 0); try discriminate; try reflexivity.
Qed.

Lemma shr_1_location (m : Z) (r s : bool) :
  loc_of_shr_record (shr_1 (Build_shr_record m r s))
  = loc_of_shr_record (Build_shr_record 0 (Z.odd m) (r || s)).
Proof. destruct m as [|[p|p|]|[p|p|]]; reflexivity. Qed.

Lemma shr_1_quotient (m : Z) (r s : bool) :
  0 <= m -> shr_m (shr_1 (Build_shr_record m r s)) = m / 2.
Proof.
  intros Hm. destruct m as [|[p|p|]|p]; cbn [shr_1 shr_m].
  - reflexivity.
  - rewrite Pos2Z.inj_xI. apply (Z.div_unique (2 * Z.pos p + 1) 2 (Z.pos p) 1); lia.
  - rewrite Pos2Z.inj_xO. apply (Z.div_unique (2 * Z.pos p) 2 (Z.pos p) 0); lia.
  - reflexivity.
  - exfalso. apply Hm. reflexivity.
Qed.

(** One shift to the right halves the quotient and doubles the divisor. *)
Lemma shr_1_holds (mrs : shr_record) (t n : Z) :
  holds mrs t n -> holds (shr_1 mrs) t (2 * n).
Proof.
  intros (Hn & Ht & Hm & Hloc).
  pose proof (location_of_record mrs _ _ Hloc) as Hrs.
  assert (Hq : 0 <= t / n) by (apply Z.div_pos; lia).
  assert (Hdiv : t / (2 * n) = t / n / 2).
  { rewrite (Z.mul_comm 2 n). symmetry. apply Z.div_div; lia. }
  assert (Hmod : t mod (2 * n) = t mod n + n * ((t / n) mod 2)).
  { rewrite (Z.mul_comm 2 n). rewrite Z.rem_mul_r by lia. reflexivity. }
  pose proof (Z.mod_pos_bound t n Hn) as Hr.
  destruct mrs as [m r s]. cbn [shr_m shr_r shr_s] in *. subst m.
  repeat split; try lia.
  - rewrite Hdiv. apply shr_1_quotient. exact Hq.
  - rewrite Hmod, shr_1_location. unfold location_of. cbn [loc_of_shr_record].
    rewrite Hrs, Zmod_odd.
    destruct (Z.odd (t / n)).
    + rewrite Z.mul_1_r.
      destruct (Z.eqb_spec (t mod n + n) 0) as [H0|_]; [lia|].
      destruct (Z.eqb_spec (t mod n) 0) as [Hz|Hne]; cbn [negb]; f_equal; symmetry.
      * apply Z.compare_eq_iff. lia.
      * apply Z.compare_gt_iff. lia.
    + rewrite Z.mul_0_r, Z.add_0_r.
      destruct (Z.eqb_spec (t mod n) 0) as [Hz|Hne]; cbn [negb]; [reflexivity|].
      f_equal. symmetry. apply Z.compare_lt_iff. lia.
Qed.

Lemma pow2_xO (p : positive) : 2 ^ Z.pos p~0 = 2 ^ Z.pos p * 2 ^ Z.pos p.
Proof. rewrite <- Z.pow_add_r by lia. f_equal. lia. Qed.

Lemma pow2_xI (p : positive) : 2 ^ Z.pos p~1 = 2 ^ Z.pos p * 2 ^ Z.pos p * 2.
Proof.
  replace (Z.pos p~1) with (Z.succ (Z.pos p~0)) by lia.
  rewrite Z.pow_succ_r, pow2_xO by lia. lia.
Qed.

Lemma iter_pos_holds (p : positive) (mrs : shr_record) (t n : Z) :
  holds mrs t n -> holds (SpecFloat.iter_pos shr_1 p mrs) t (2 ^ Z.pos p * n).
Proof.
  revert mrs n. induction p as [p IH|p IH|]; intros mrs n H; cbn [SpecFloat.iter_pos].
  - apply shr_1_holds in H. apply IH in H. apply IH in H.
    replace (2 ^ Z.pos p~1 * n) with (2 ^ Z.pos p * (2 ^ Z.pos p * (2 * n))); [exact H|].
    rewrite pow2_xI. lia.
  - apply IH in H. apply IH in H.
    replace (2 ^ Z.pos p~0 * n) with (2 ^ Z.pos p * (2 ^ Z.pos p * n)); [exact H|].
    rewrite pow2_xO. lia.
  - apply shr_1_holds in H. exact H.
Qed.

Lemma nearest_even_bounds (t n : Z) :
  0 < n -> 0 <= t ->
  t / n <= nearest_even t n <= t / n + 1
  /\ 2 * Z.abs (nearest_even t n * n - t) <= n.
Proof.
  intros Hn Ht. unfold nearest_even, location_of, round_nearest_even.
  pose proof (Z.div_mod t n ltac:(lia)) as Hdm.
  pose proof (Z.mod_pos_bound t n Hn) as Hr.
  set (q := t / n) in *. set (r := t mod n) in *.
  destruct (Z.eqb_spec r 0) as [Hz|Hnz]; [split; nia|].
  destruct (Z.compare_spec (2 * r) n) as [He|Hl|Hg]; [destruct (Z.even q)| |]; split; nia.
Qed.

Lemma holds_round (mrs : shr_record) (t n : Z) :
  holds mrs t n ->
  round_nearest_even (shr_m mrs) (loc_of_shr_record mrs) = nearest_even t n.
Proof. intros (_ & _ & -> & ->). reflexivity. Qed.

Lemma holds_of_location (m d r : Z) :
  0 <= m -> 0 <= r < d ->
  holds (shr_record_of_loc m (location_of r d)) (m * d + r) d.
Proof.
  intros Hm Hr.
  assert (Hq : (m * d + r) / d = m).
  { symmetry. apply (Z.div_unique _ d m r); lia. }
  assert (Hrem : (m * d + r) mod d = r).
  { symmetry. apply (Z.mod_unique _ d m r); lia. }
  repeat split; try nia.
  - rewrite Hq. destruct (location_of r d) as [|[| |]]; reflexivity.
  - rewrite Hrem. destruct (location_of r d) as [|[| |]]; reflexivity.
Qed.

Lemma fexp_normal (e : Z) : -1074 <= e - 53 -> fexp prec emax e = e - 53.
Proof. unfold fexp, emin, prec, emax. lia. Qed.

(** [binary_round_aux] on a mantissa of [53 + n] bits with a remainder
    [r / d], in the range of the normal numbers: the mantissa is shifted
    by [n] bits and rounded to the nearest, ties to even. *)
Lemma binary_round_aux_normal (s : bool) (m : positive) (ex d r n : Z) :
  0 <= r < d ->
  Z.pos (digits2_pos m) = 53 + n -> 0 <= n ->
  -1074 <= ex + n -> ex + n < 971 ->
  binary_round_aux prec emax s (Z.pos m) ex (location_of r d)
  = rounded s (nearest_even (Z.pos m * d + r) (2 ^ n * d)) (ex + n)
  /\ 2 ^ 52 <= nearest_even (Z.pos m * d + r) (2 ^ n * d) <= 2 ^ 53.
Proof.
  intros Hr Hdigits Hn Hlo Hhi.
  set (t := Z.pos m * d + r). set (mr := nearest_even t (2 ^ n * d)).
  assert (Hpow : 0 < 2 ^ n) by (apply Z.pow_pos_nonneg; lia).
  assert (Ht : 0 <= t) by (unfold t; nia).
  assert (Hfirst : exists mrs, shr_fexp prec emax (Z.pos m) ex (location_of r d) = (mrs, ex + n)
                               /\ holds mrs t (2 ^ n * d)).
  { unfold shr_fexp. cbn [Zdigits2]. rewrite Hdigits.
    rewrite fexp_normal by lia.
    replace (53 + n + ex - 53 - ex) with n by lia.
    pose proof (holds_of_location (Z.pos m) d r ltac:(lia) Hr) as Hholds.
    fold t in Hholds.
    destruct n as [|p|p]; [| |lia]; cbn [shr].
    - eexists. split; [f_equal; lia|]. rewrite Z.mul_1_l. exact Hholds.
    - eexists. split; [reflexivity|]. apply iter_pos_holds. exact Hholds. }
  destruct Hfirst as (mrs & Hshift & Hholds).
  assert (Hquot : 2 ^ 52 <= t / (2 ^ n * d) < 2 ^ 53).
  { pose proof (digits2_pos_bounds m) as Hb. rewrite Hdigits in Hb.
    replace (53 + n - 1) with (52 + n) in Hb by lia.
    rewrite !Z.pow_add_r in Hb by lia.
    split.
    - apply Z.div_le_lower_bound; [nia|]. unfold t. nia.
    - apply Z.div_lt_upper_bound; [nia|]. unfold t. nia. }
  pose proof (nearest_even_bounds t (2 ^ n * d) ltac:(nia) Ht) as [Hnear _].
  fold mr in Hnear.
  assert (Hmr : 2 ^ 52 <= mr <= 2 ^ 53) by lia.
  split; [|exact Hmr].
  unfold binary_round_aux. rewrite Hshift.
  rewrite (holds_round mrs t _ Hholds). fold mr.
  unfold rounded.
  destruct (Z.ltb_spec mr (2 ^ 53)) as [Hlt|Hge].
  - destruct mr as [|q|q] eqn:Hq; try lia.
    assert (Hd : Z.pos (digits2_pos q) = 53).
    { apply digits2_pos_unique. change (53 - 1) with 52. lia. }
    unfold shr_fexp. cbn [Zdigits2]. rewrite Hd.
    rewrite fexp_normal by lia.
    replace (53 + (ex + n) - 53 - (ex + n)) with 0 by lia.
    cbn [shr shr_record_of_loc shr_m].
    replace (ex + n <=? emax - prec) with true; [reflexivity|].
    symmetry. apply Z.leb_le. unfold emax, prec. lia.
  - assert (Heq : mr = 2 ^ 53) by lia. rewrite Heq.
    unfold shr_fexp. change (Zdigits2 (2 ^ 53)) with 54.
    rewrite fexp_normal by lia.
    replace (54 + (ex + n) - 53 - (ex + n)) with 1 by lia.
    cbn [shr shr_record_of_loc SpecFloat.iter_pos].
    change (shr_1 {| shr_m := 2 ^ 53; shr_r := false; shr_s := false |})
      with {| shr_m := 2 ^ 52; shr_r := false; shr_s := false |}.
    cbn [shr_m]. change (2 ^ 52) with (Z.pos (Z.to_pos (2 ^ 52))) at 1.
    cbv iota beta.
    replace (ex + n + 1 <=? emax - prec) with true; [reflexivity|].
    symmetry. apply Z.leb_le. unfold emax, prec. lia.
Qed.

End RoundingAux.

Section Stages.

Lemma rounded_canonical (s : bool) (mr e : Z) :
  2 ^ 52 <= mr <= 2 ^ 53 ->
  exists mf k,
    rounded s mr e = S754_finite s (Z.to_pos mf) (e + k)
    /\ 2 ^ 52 <= mf < 2 ^ 53 /\ (k = 0 \/ k = 1) /\ mf * 2 ^ k = mr.
Proof.
  intros Hmr. unfold rounded.
  destruct (Z.ltb_spec mr (2 ^ 53)) as [Hlt|Hge].
  - exists mr, 0. rewrite Z.add_0_r. repeat split; lia.
  - exists (2 ^ 52), 1. repeat split; lia.
Qed.

Lemma iter_xO (m d : positive) : Z.pos (Pos.iter xO m d) = Z.pos m * 2 ^ Z.pos d.
Proof.
  induction d as [|d IH] using Pos.peano_ind.
  - cbn [Pos.iter]. rewrite Pos2Z.inj_xO. change (2 ^ 1) with 2. lia.
  - rewrite Pos.iter_succ, Pos2Z.inj_xO, IH, Pos2Z.inj_succ, Z.pow_succ_r by lia. lia.
Qed.

Lemma nearest_even_exact (m : Z) : nearest_even (m * 1 + 0) (2 ^ 0 * 1) = m.
Proof.
  unfold nearest_even. change (2 ^ 0 * 1) with 1.
  rewrite Z.mul_1_r, Z.add_0_r, Z.div_1_r, Z.mod_1_r. reflexivity.
Qed.

(** The conversion of an int of at most 53 bits is exact: the int itself,
    shifted up to 53 bits. *)
Lemma normalize_exact (s : bool) (a : positive) :
  Z.pos a < 2 ^ 53 ->
  let da := Z.pos (digits2_pos a) in
  binary_normalize prec emax (if s then Z.neg a else Z.pos a) 0 false
  = S754_finite s (Z.to_pos (Z.pos a * 2 ^ (53 - da))) (da - 53)
  /\ 1 <= da <= 53.
Proof.
  intros Ha da.
  pose proof (digits2_pos_bounds a) as Hb. fold da in Hb.
  assert (Hda : 1 <= da <= 53).
  { split; [unfold da; lia|].
    destruct (Z.le_gt_cases da 53) as [H|H]; [exact H|].
    assert (2 ^ 53 <= 2 ^ (da - 1)) by (apply Z.pow_le_mono_r; lia). lia. }
  split; [|exact Hda].
  assert (Hround : binary_round prec emax s a 0
                   = S754_finite s (Z.to_pos (Z.pos a * 2 ^ (53 - da))) (da - 53)).
  { unfold binary_round, shl_align. fold da. rewrite Z.add_0_r.
    rewrite fexp_normal by lia. rewrite Z.sub_0_r.
    assert (Hshift : exists mz, (match da - 53 with
                                 | Z.neg d => (Pos.iter xO a d, da - 53)
                                 | _ => (a, 0)
                                 end) = (mz, da - 53)
                                /\ Z.pos mz = Z.pos a * 2 ^ (53 - da)).
    { destruct (da - 53) as [|d|d] eqn:Hd; [|lia|].
      - exists a. split; [reflexivity|].
        replace (53 - da) with 0 by lia. lia.
      - exists (Pos.iter xO a d). split; [reflexivity|].
        rewrite iter_xO. f_equal. f_equal. lia. }
    destruct Hshift as (mz & -> & Hmz).
    assert (Hdz : Z.pos (digits2_pos mz) = 53 + 0).
    { apply digits2_pos_unique. rewrite Hmz.
      assert (H52 : 2 ^ (53 + 0 - 1) = 2 ^ (da - 1) * 2 ^ (53 - da)).
      { rewrite <- Z.pow_add_r by lia. f_equal. lia. }
      assert (H53 : 2 ^ (53 + 0) = 2 ^ da * 2 ^ (53 - da)).
      { rewrite <- Z.pow_add_r by lia. f_equal. lia. }
      rewrite H52, H53.
      assert (0 < 2 ^ (53 - da)) by (apply Z.pow_pos_nonneg; lia). nia. }
    change loc_Exact with (location_of 0 1).
    destruct (binary_round_aux_normal s mz (da - 53) 1 0 0 ltac:(lia) Hdz ltac:(lia)
                ltac:(lia) ltac:(lia)) as [Heq _].
    rewrite Heq, nearest_even_exact. unfold rounded.
    pose proof (digits2_pos_bounds mz) as Hbz. rewrite Hdz in Hbz.
    replace (Z.pos mz <? 2 ^ 53) with true by (symmetry; apply Z.ltb_lt; apply Hbz).
    rewrite Z.add_0_r, <- Hmz. reflexivity. }
  destruct s; exact Hround.
Qed.

(** The product of two normal floats, in the range of the normal
    numbers. *)
Lemma SFmul_normal (s : bool) (ma mc : positive) (ea ec : Z) :
  Z.pos (digits2_pos ma) = 53 -> Z.pos (digits2_pos mc) = 53 ->
  -1074 <= ea + ec + 52 -> ea + ec + 53 < 971 ->
  exists mp k,
    SFmul prec emax (S754_finite s ma ea) (S754_finite false mc ec)
    = S754_finite s (Z.to_pos mp) (ea + ec + k)
    /\ 2 ^ 52 <= mp < 2 ^ 53 /\ 52 <= k <= 54
    /\ 2 * Z.abs (mp * 2 ^ k - Z.pos ma * Z.pos mc) <= 2 ^ k.
Proof.
  intros Hda Hdc Hlo Hhi.
  pose proof (digits2_pos_bounds ma) as Ha. rewrite Hda in Ha.
  pose proof (digits2_pos_bounds mc) as Hc. rewrite Hdc in Hc.
  change (53 - 1) with 52 in Ha, Hc.
  cbn [SFmul]. rewrite xorb_false_r. rewrite Pos2Z.inj_mul.
  set (m := (ma * mc)%positive).
  assert (Hm : Z.pos m = Z.pos ma * Z.pos mc) by (unfold m; lia).
  assert (Hrange : 2 ^ 104 <= Z.pos m < 2 ^ 106).
  { change (2 ^ 104) with (2 ^ 52 * 2 ^ 52). change (2 ^ 106) with (2 ^ 53 * 2 ^ 53). nia. }
  assert (Hn : exists n, Z.pos (digits2_pos m) = 53 + n /\ 52 <= n <= 53).
  { destruct (Z.lt_ge_cases (Z.pos m) (2 ^ 105)) as [H|H].
    - exists 52. split; [|lia]. apply digits2_pos_unique.
      change (53 + 52 - 1) with 104. change (53 + 52) with 105. lia.
    - exists 53. split; [|lia]. apply digits2_pos_unique.
      change (53 + 53 - 1) with 105. change (53 + 53) with 106. lia. }
  destruct Hn as (n & Hdm & Hn).
  change loc_Exact with (location_of 0 1).
  destruct (binary_round_aux_normal s m (ea + ec) 1 0 n ltac:(lia) Hdm ltac:(lia)
              ltac:(lia) ltac:(lia)) as [Heq Hmr].
  rewrite <- Hm.
  replace (Z.pos m * 1 + 0) with (Z.pos m) in * by lia.
  assert (Hpow : 0 < 2 ^ n) by (apply Z.pow_pos_nonneg; lia).
  pose proof (nearest_even_bounds (Z.pos m) (2 ^ n * 1) ltac:(lia) ltac:(lia)) as [_ Herr].
  set (mr := nearest_even (Z.pos m) (2 ^ n * 1)) in *.
  destruct (rounded_canonical s mr (ea + ec + n) Hmr) as (mf & k & Hcan & Hmf & Hk & Hval).
  exists mf, (n + k). unfold m in Heq. fold m in Heq.
  split; [rewrite Heq, Hcan; f_equal; lia|].
  split; [exact Hmf|]. split; [lia|].
  rewrite Z.pow_add_r by lia.
  destruct Hk as [-> | ->]; change (2 ^ 0) with 1 in *; change (2 ^ 1) with 2 in *; nia.
Qed.

(** The quotient of a normal float by 1000, in the range of the normal
    numbers. *)
Lemma SFdiv_thousand (s : bool) (mp : positive) (ep : Z) :
  Z.pos (digits2_pos mp) = 53 ->
  -1074 <= ep - 10 -> ep - 10 + 1 < 971 ->
  exists md k,
    SFdiv prec emax (S754_finite s mp ep) thousand
    = S754_finite s (Z.to_pos md) (ep - 10 + k)
    /\ 2 ^ 52 <= md < 2 ^ 53 /\ (k = 0 \/ k = 1)
    /\ 2 * Z.abs (125 * md * 2 ^ k - 128 * Z.pos mp) <= 125 * 2 ^ k.
Proof.
  intros Hdp Hlo Hhi.
  pose proof (digits2_pos_bounds mp) as Hp. rewrite Hdp in Hp.
  change (53 - 1) with 52 in Hp.
  unfold thousand. cbn [SFdiv]. rewrite xorb_false_r.
  unfold SFdiv_core_binary. cbn [Zdigits2]. rewrite Hdp.
  change (Z.pos (digits2_pos 8796093022208000)) with 53.
  replace (53 + ep - (53 + -43)) with (ep + 43) by lia.
  rewrite fexp_normal by lia.
  replace (Z.min (ep + 43 - 53) (ep - -43)) with (ep - 10) by lia.
  replace (ep - -43 - (ep - 10)) with 53 by lia.
  rewrite Z.shiftl_mul_pow2 by lia.
  set (mk := 8796093022208000).
  pose proof (Z_div_mod (Z.pos mp * 2 ^ 53) mk ltac:(reflexivity)) as Hdiv.
  destruct (Z.div_eucl (Z.pos mp * 2 ^ 53) mk) as [q r].
  destruct Hdiv as [Hq Hr].
  change (new_location mk r) with (location_of r mk).
  assert (Hqr : 2 ^ 52 < q < 2 ^ 54) by (unfold mk in *; lia).
  destruct q as [|q|q]; try lia.
  assert (Hn : exists n, Z.pos (digits2_pos q) = 53 + n /\ 0 <= n <= 1).
  { destruct (Z.lt_ge_cases (Z.pos q) (2 ^ 53)) as [H|H].
    - exists 0. split; [|lia]. apply digits2_pos_unique.
      change (53 + 0 - 1) with 52. change (53 + 0) with 53. lia.
    - exists 1. split; [|lia]. apply digits2_pos_unique.
      change (53 + 1 - 1) with 53. change (53 + 1) with 54. lia. }
  destruct Hn as (n & Hdq & Hn).
  destruct (binary_round_aux_normal s q (ep - 10) mk r n Hr Hdq ltac:(lia)
              ltac:(lia) ltac:(lia)) as [Heq Hmr].
  assert (Hpow : 0 < 2 ^ n) by (apply Z.pow_pos_nonneg; lia).
  pose proof (nearest_even_bounds (Z.pos q * mk + r) (2 ^ n * mk)
                ltac:(unfold mk; lia) ltac:(unfold mk in *; lia)) as [_ Herr].
  set (mr := nearest_even (Z.pos q * mk + r) (2 ^ n * mk)) in *.
  destruct (rounded_canonical s mr (ep - 10 + n) Hmr) as (mf & k & Hcan & Hmf & Hk & Hval).
  assert (Hcases : (n = 0 \/ n = 1)) by lia.
  assert (Htotal : Z.pos q * mk + r = Z.pos mp * 2 ^ 53) by lia.
  rewrite Htotal in Herr.
  destruct Hcases as [-> | ->]; destruct Hk as [-> | ->];
    change (2 ^ 0) with 1 in *; change (2 ^ 1) with 2 in *.
  - exists mf, 0. rewrite Heq, Hcan. split; [f_equal; lia|].
    split; [exact Hmf|]. split; [left; reflexivity|]. unfold mk in *. lia.
  - exists mf, 1. rewrite Heq, Hcan. split; [f_equal; lia|].
    split; [exact Hmf|]. split; [right; reflexivity|]. unfold mk in *. lia.
  - exists mf, 1. rewrite Heq, Hcan. split; [f_equal; lia|].
    split; [exact Hmf|]. split; [right; reflexivity|]. unfold mk in *. lia.
  - exfalso. unfold mk in *. lia.
Qed.

End Stages.

Section Strictness.

Variable cm : Z.
Hypothesis cm_wide : 5 * 2 ^ 52 < 4 * cm.

Variables a mp kp md kd mp' kp' md' kd' : Z.
Hypothesis a_pos : 1 <= a.
Hypothesis a_top : 128 * (a * cm + 2 ^ 51) < (125 * 2 ^ 53 - 125) * 2 ^ 52.
Hypothesis Hp : product_near cm a mp kp.
Hypothesis Hp' : product_near cm (a + 1) mp' kp'.
Hypothesis Hq : quotient_near mp md kd.
Hypothesis Hq' : quotient_near mp' md' kd'.

Lemma product_exponent : kp <= 52.
Proof.
  destruct Hp as (Hm & Hk & Herr).
  destruct (Z.le_gt_cases kp 52) as [H|H]; [exact H|exfalso].
  assert (Hu : 2 ^ 53 <= 2 ^ kp) by (apply Z.pow_le_mono_r; lia).
  assert (Hl : 2 ^ 52 * 2 ^ kp <= mp * 2 ^ kp)
    by (apply Z.mul_le_mono_nonneg_r; lia).
  lia.
Qed.

Lemma exponents_ordered : kp <= kp'.
Proof.
  destruct Hp as (Hm & Hk & Herr). destruct Hp' as (Hm' & Hk' & Herr').
  destruct (Z.le_gt_cases kp kp') as [H|H]; [exact H|exfalso].
  assert (Hu : 2 * 2 ^ kp' <= 2 ^ kp).
  { rewrite <- Z.pow_succ_r by lia. apply Z.pow_le_mono_r; lia. }
  assert (Hu' : 0 < 2 ^ kp') by (apply Z.pow_pos_nonneg; lia).
  assert (Hl : 2 ^ 52 * 2 ^ kp <= mp * 2 ^ kp)
    by (apply Z.mul_le_mono_nonneg_r; lia).
  assert (Hh : mp' * 2 ^ kp' <= (2 ^ 53 - 1) * 2 ^ kp')
    by (apply Z.mul_le_mono_nonneg_r; lia).
  assert (Hu52 : 2 ^ kp <= 2 ^ 52).
  { apply Z.pow_le_mono_r; [lia|]. exact product_exponent. }
  lia.
Qed.

(** The two products are at least one unit of the smaller one's last
    place apart, and two units below the top exponent. *)
Lemma product_gap :
  (kp' = kp /\ mp + 1 <= mp' /\ (kp <= 51 -> mp + 2 <= mp'))
  \/ (kp' = kp + 1 /\ (kp <= 51 -> mp + 2 <= 2 * mp'))
  \/ kp + 2 <= kp'.
Proof.
  pose proof exponents_ordered as Hord. pose proof product_exponent as Htop.
  destruct Hp as (Hm & Hk & Herr). destruct Hp' as (Hm' & Hk' & Herr').
  assert (Hu : 0 < 2 ^ kp) by (apply Z.pow_pos_nonneg; lia).
  assert (Hu52 : 2 ^ kp <= 2 ^ 52) by (apply Z.pow_le_mono_r; lia).
  destruct (Z.eq_dec kp' kp) as [Heq|Hne].
  - left. split; [exact Heq|]. rewrite Heq in Herr'.
    assert (Hgap : 2 * cm - 2 * 2 ^ kp <= 2 * ((mp' - mp) * 2 ^ kp)) by lia.
    split.
    + destruct (Z.le_gt_cases (mp + 1) mp') as [H|H]; [exact H|exfalso].
      assert ((mp' - mp) * 2 ^ kp <= 0) by (apply Z.mul_nonpos_nonneg; lia).
      lia.
    + intros H51.
      assert (Hu51 : 2 ^ kp <= 2 ^ 51) by (apply Z.pow_le_mono_r; lia).
      destruct (Z.le_gt_cases (mp + 2) mp') as [H|H]; [exact H|exfalso].
      assert ((mp' - mp) * 2 ^ kp <= 1 * 2 ^ kp)
        by (apply Z.mul_le_mono_nonneg_r; lia).
      lia.
  - destruct (Z.eq_dec kp' (kp + 1)) as [Heq|Hne2]; [|right; right; lia].
    right; left. split; [exact Heq|].
    intros H51.
    assert (Hu51 : 2 ^ kp <= 2 ^ 51) by (apply Z.pow_le_mono_r; lia).
    rewrite Heq in Herr'.
    replace (2 ^ (kp + 1)) with (2 * 2 ^ kp) in Herr'
      by (rewrite <- Z.pow_succ_r by lia; f_equal; lia).
    destruct (Z.le_gt_cases (mp + 2) (2 * mp')) as [H|H]; [exact H|exfalso].
    assert (Hmp : mp = 2 ^ 53 - 1) by lia.
    assert (Hmp' : mp' = 2 ^ 52) by lia.
    subst mp mp'. lia.
Qed.

(** At the top exponent the quotient does not carry. *)
Lemma top_quotient : kp = 52 -> kd = 0.
Proof.
  intros Htop.
  destruct Hp as (Hm & Hk & Herr). destruct Hq as (Hd & Hkd & Herrq).
  rewrite Htop in Herr.
  destruct Hkd as [H|H]; [exact H|exfalso].
  rewrite H in Herrq. change (2 ^ 1) with 2 in Herrq. lia.
Qed.

(** The distance of [a] is strictly below the distance of [a + 1]. *)
Lemma quotients_increase :
  kp + kd < kp' + kd' \/ (kp + kd = kp' + kd' /\ md < md').
Proof.
  pose proof product_gap as Hgap. pose proof top_quotient as Htop.
  pose proof product_exponent as Hexp.
  destruct Hq as (Hd & Hkd & Herr). destruct Hq' as (Hd' & Hkd' & Herr').
  destruct Hp as (Hm & _). destruct Hp' as (Hm' & _).
  destruct Hkd as [-> | ->], Hkd' as [-> | ->];
    change (2 ^ 0) with 1 in *; change (2 ^ 1) with 2 in *;
    destruct Hgap as [(Hk & H1 & H2)|[(Hk & H2)|Hk]]; lia.
Qed.

End Strictness.

Section Distance.

Lemma valid_normal (s : bool) (m : positive) (e : Z) :
  Z.pos (digits2_pos m) = 53 -> -1074 <= e <= 971 ->
  valid_binary (S754_finite s m e) = true.
Proof.
  intros Hd He. cbn [SpecFloat.valid_binary]. unfold bounded, canonical_mantissa.
  rewrite Hd, fexp_normal by lia.
  apply andb_true_intro. split.
  - apply Z.eqb_eq. lia.
  - apply Z.leb_le. unfold emax, prec. lia.
Qed.

Lemma to_pos_digits (m : Z) :
  2 ^ 52 <= m < 2 ^ 53 -> Z.pos (digits2_pos (Z.to_pos m)) = 53 /\ Z.pos (Z.to_pos m) = m.
Proof.
  intros Hm. assert (Hpos : Z.pos (Z.to_pos m) = m) by (apply Z2Pos.id; lia).
  split; [|exact Hpos].
  apply digits2_pos_unique. rewrite Hpos. change (53 - 1) with 52. exact Hm.
Qed.

(** The conversion of a count of at most 53 bits. *)
Lemma of_Z_finite (s : bool) (a : positive) :
  Z.pos a < 2 ^ 53 ->
  let da := Z.pos (digits2_pos a) in
  Prim2SF (Float.of_Z (if s then Z.neg a else Z.pos a))
  = S754_finite s (Z.to_pos (Z.pos a * 2 ^ (53 - da))) (da - 53)
  /\ 1 <= da <= 53
  /\ 2 ^ 52 <= Z.pos a * 2 ^ (53 - da) < 2 ^ 53.
Proof.
  intros Ha da.
  destruct (normalize_exact s a Ha) as [Hnorm Hda]. fold da in Hnorm, Hda.
  assert (Hm : 2 ^ 52 <= Z.pos a * 2 ^ (53 - da) < 2 ^ 53).
  { pose proof (digits2_pos_bounds a) as Hb. fold da in Hb.
    assert (H52 : 2 ^ 52 = 2 ^ (da - 1) * 2 ^ (53 - da)).
    { rewrite <- Z.pow_add_r by lia. f_equal. lia. }
    assert (H53 : 2 ^ 53 = 2 ^ da * 2 ^ (53 - da)).
    { rewrite <- Z.pow_add_r by lia. f_equal. lia. }
    rewrite H52, H53.
    assert (0 < 2 ^ (53 - da)) by (apply Z.pow_pos_nonneg; lia). nia. }
  split; [|split; [exact Hda|exact Hm]].
  unfold Float.of_Z. rewrite Hnorm.
  apply Prim2SF_SF2Prim. apply valid_normal; [|lia].
  apply (to_pos_digits _ Hm).
Qed.

Lemma finite_not_infinity (x : float) (s : bool) (m : positive) (e : Z) :
  Prim2SF x = S754_finite s m e -> PrimFloat.is_infinity x = false.
Proof.
  intros H. unfold PrimFloat.is_infinity.
  rewrite FloatAxioms.eqb_spec, FloatAxioms.abs_spec, H. reflexivity.
Qed.

Variable step : float.
Variable cm : positive.
Variable ce : Z.
Hypothesis step_spec : Prim2SF step = S754_finite false cm ce.
Hypothesis cm_digits : Z.pos (digits2_pos cm) = 53.
Hypothesis ce_range : -100 <= ce <= 0.

(** The distance of a count that is not zero and has at most 53 bits: a
    normal float, whose mantissa and exponent are within half a unit of
    the exact product and of the exact quotient. *)
Lemma distance_shape (s : bool) (a : positive) :
  Z.pos a < 2 ^ 53 ->
  exists mp kp md kd,
    product_near (Z.pos cm) (Z.pos a) mp kp
    /\ quotient_near mp md kd
    /\ Prim2SF (distance_of step (if s then Z.neg a else Z.pos a))
       = S754_finite s (Z.to_pos md) (ce + kp - 10 + kd).
Proof.
  intros Ha.
  destruct (of_Z_finite s a Ha) as (Hconv & Hda & Hma).
  set (da := Z.pos (digits2_pos a)) in *.
  set (ma := Z.pos a * 2 ^ (53 - da)) in *.
  destruct (to_pos_digits ma Hma) as [Hdma Hposma].
  destruct (SFmul_normal s (Z.to_pos ma) cm (da - 53) ce Hdma cm_digits
              ltac:(lia) ltac:(lia)) as (mp & k & Hmul & Hmp & Hk & Herr).
  rewrite Hposma in Herr.
  destruct (to_pos_digits mp Hmp) as [Hdmp Hposmp].
  destruct (SFdiv_thousand s (Z.to_pos mp) (da - 53 + ce + k) Hdmp
              ltac:(lia) ltac:(lia)) as (md & kd & Hdiv & Hmd & Hkd & Herrq).
  rewrite Hposmp in Herrq.
  exists mp, (k - (53 - da)), md, kd.
  split; [|split].
  - split; [exact Hmp|]. split; [lia|].
    assert (Hshift : 0 < 2 ^ (53 - da)) by (apply Z.pow_pos_nonneg; lia).
    assert (Hpow : 2 ^ k = 2 ^ (k - (53 - da)) * 2 ^ (53 - da)).
    { rewrite <- Z.pow_add_r by lia. f_equal. lia. }
    rewrite Hpow in Herr. unfold ma in Herr.
    assert (Hpos : 0 < 2 ^ (k - (53 - da))) by (apply Z.pow_pos_nonneg; lia).
    set (u := 2 ^ (k - (53 - da))) in *. set (v := 2 ^ (53 - da)) in *.
    replace (mp * (u * v) - Z.pos a * v * Z.pos cm)
      with ((mp * u - Z.pos a * Z.pos cm) * v) in Herr by ring.
    rewrite Z.abs_mul, (Z.abs_eq v) in Herr by lia.
    nia.
  - split; [exact Hmd|]. split; [exact Hkd|exact Herrq].
  - unfold distance_of.
    rewrite FloatAxioms.div_spec, FloatAxioms.mul_spec, Hconv, step_spec.
    change (Prim2SF 1000) with thousand.
    unfold SF64div, SF64mul. fold da. fold ma. rewrite Hmul, Hdiv.
    f_equal. lia.
Qed.

End Distance.

Section Steps.

Lemma SFltb_trans (a b c : spec_float) :
  SFltb a b = true -> SFltb b c = true -> SFltb a c = true.
Proof.
  unfold SFltb, SFcompare.
  destruct a as [sa|sa| |sa ma ea], b as [sb|sb| |sb mb eb], c as [sc|sc| |sc mc ec];
    try discriminate; try reflexivity;
    try (destruct sa; try discriminate; try reflexivity);
    try (destruct sb; try discriminate; try reflexivity);
    try (destruct sc; try discriminate; try reflexivity).
  all: change (Pos.compare_cont Eq) with Pos.compare.
  all: destruct (Z.compare_spec ea eb), (Z.compare_spec eb ec), (Z.compare_spec ea ec);
    try discriminate; try reflexivity; try lia.
  all: subst; destruct (Pos.compare_spec ma mb), (Pos.compare_spec mb mc),
    (Pos.compare_spec ma mc); try discriminate; try reflexivity; try lia.
Qed.

Lemma ltb_trans (x y z : float) :
  PrimFloat.ltb x y = true -> PrimFloat.ltb y z = true -> PrimFloat.ltb x z = true.
Proof. rewrite !FloatAxioms.ltb_spec. apply SFltb_trans. Qed.

(** The order of two normal floats of the same sign, read off their
    exponents and mantissas. *)
Lemma finite_ltb (m m' e e' : Z) :
  0 < m -> 0 < m' ->
  e < e' \/ (e = e' /\ m < m') ->
  SFltb (S754_finite false (Z.to_pos m) e) (S754_finite false (Z.to_pos m') e') = true
  /\ SFltb (S754_finite true (Z.to_pos m') e') (S754_finite true (Z.to_pos m) e) = true.
Proof.
  intros Hm Hm' H. unfold SFltb, SFcompare.
  change (Pos.compare_cont Eq) with Pos.compare.
  destruct H as [He|[He Hlt]].
  - rewrite (proj2 (Z.compare_lt_iff e e') He).
    rewrite (proj2 (Z.compare_gt_iff e' e) He). split; reflexivity.
  - subst e'. rewrite Z.compare_refl.
    assert (Hpos : (Z.to_pos m < Z.to_pos m')%positive) by lia.
    rewrite (proj2 (Pos.compare_lt_iff _ _) Hpos).
    rewrite (proj2 (Pos.compare_gt_iff _ _) Hpos). split; reflexivity.
Qed.

Variable step : float.
Variable cm : positive.
Variable ce : Z.
Hypothesis step_spec : Prim2SF step = S754_finite false cm ce.
Hypothesis cm_normal : 2 ^ 52 < Z.pos cm < 2 ^ 53.
Hypothesis cm_wide : 5 * 2 ^ 52 < 4 * Z.pos cm.
Hypothesis ce_range : -100 <= ce <= 0.

(** The largest count that the analysis of the rounding covers. *)
Variable reach : Z.
Hypothesis reach_small : reach + 1 < 2 ^ 53.
Hypothesis reach_fits : 128 * (reach * Z.pos cm + 2 ^ 51) < (125 * 2 ^ 53 - 125) * 2 ^ 52.

Lemma step_between (a : Z) :
  1 <= a <= reach ->
  PrimFloat.ltb (distance_of step a) (distance_of step (a + 1)) = true
  /\ PrimFloat.ltb (distance_of step (- (a + 1))) (distance_of step (- a)) = true.
Proof.
  intros Ha.
  assert (Hcd : Z.pos (digits2_pos cm) = 53).
  { apply digits2_pos_unique. change (53 - 1) with 52. lia. }
  destruct a as [|p|p]; try lia.
  assert (Hnext : Z.pos p + 1 = Z.pos (p + 1)) by lia.
  rewrite Hnext.
  change (- Z.pos (p + 1)) with (Z.neg (p + 1)). change (- Z.pos p) with (Z.neg p).
  destruct (distance_shape step cm ce step_spec Hcd ce_range false p ltac:(lia))
    as (mp & kp & md & kd & Hp & Hq & Hpos).
  destruct (distance_shape step cm ce step_spec Hcd ce_range true p ltac:(lia))
    as (mp0 & kp0 & md0 & kd0 & Hp0 & Hq0 & Hneg).
  destruct (distance_shape step cm ce step_spec Hcd ce_range false (p + 1) ltac:(lia))
    as (mp' & kp' & md' & kd' & Hp' & Hq' & Hpos').
  destruct (distance_shape step cm ce step_spec Hcd ce_range true (p + 1) ltac:(lia))
    as (mp0' & kp0' & md0' & kd0' & Hp0' & Hq0' & Hneg').
  cbv iota in Hpos, Hneg, Hpos', Hneg'.
  assert (Htop : 128 * (Z.pos p * Z.pos cm + 2 ^ 51) < (125 * 2 ^ 53 - 125) * 2 ^ 52) by nia.
  rewrite <- Hnext in Hp', Hp0'.
  pose proof (quotients_increase (Z.pos cm) cm_wide (Z.pos p)
                mp kp md kd mp' kp' md' kd' ltac:(lia) Htop Hp Hp' Hq Hq') as Hup.
  pose proof (quotients_increase (Z.pos cm) cm_wide (Z.pos p)
                mp0 kp0 md0 kd0 mp0' kp0' md0' kd0' ltac:(lia) Htop Hp0 Hp0' Hq0 Hq0') as Hdown.
  rewrite !FloatAxioms.ltb_spec, Hpos, Hpos', Hneg, Hneg'.
  destruct Hq as (Hmd & _). destruct Hq' as (Hmd' & _).
  destruct Hq0 as (Hmd0 & _). destruct Hq0' as (Hmd0' & _).
  split.
  - apply (finite_ltb md md' (ce + kp - 10 + kd) (ce + kp' - 10 + kd')); lia.
  - apply (finite_ltb md0 md0' (ce + kp0 - 10 + kd0) (ce + kp0' - 10 + kd0')); lia.
Qed.

(** The counts next to zero and the counts between [reach] and [final], the
    last count before the first two counts of equal distance. *)
Variable final : Z.
Hypothesis around_zero :
  PrimFloat.ltb (distance_of step (-1)) (distance_of step 0) = true
  /\ PrimFloat.ltb (distance_of step 0) (distance_of step 1) = true.
Hypothesis beyond_reach :
  forall a, reach < a < final ->
    PrimFloat.ltb (distance_of step a) (distance_of step (a + 1)) = true
    /\ PrimFloat.ltb (distance_of step (- (a + 1))) (distance_of step (- a)) = true.

Lemma step_increases (a : Z) :
  - final <= a < final ->
  PrimFloat.ltb (distance_of step a) (distance_of step (a + 1)) = true.
Proof.
  intros Ha.
  destruct (Z.lt_trichotomy a 0) as [Hneg|[Hzero|Hpos]].
  - destruct (Z.eq_dec a (-1)) as [->|Hne]; [exact (proj1 around_zero)|].
    replace a with (- (- a - 1 + 1)) at 1 by lia.
    replace (a + 1) with (- (- a - 1)) by lia.
    destruct (Z.le_gt_cases (- a - 1) reach) as [Hle|Hgt].
    + apply step_between. lia.
    + apply beyond_reach. lia.
  - subst a. exact (proj2 around_zero).
  - destruct (Z.le_gt_cases a reach) as [Hle|Hgt].
    + apply step_between. lia.
    + apply beyond_reach. lia.
Qed.

Lemma distance_increases (k : nat) (a : Z) :
  - final <= a -> a + 1 + Z.of_nat k <= final ->
  PrimFloat.ltb (distance_of step a) (distance_of step (a + 1 + Z.of_nat k)) = true.
Proof.
  intros Ha. induction k as [|k IH]; intros Hb.
  - replace (a + 1 + Z.of_nat 0) with (a + 1) by lia.
    apply step_increases. lia.
  - apply ltb_trans with (distance_of step (a + 1 + Z.of_nat k)).
    + apply IH. lia.
    + replace (a + 1 + Z.of_nat (S k)) with (a + 1 + Z.of_nat k + 1) by lia.
      apply step_increases. lia.
Qed.

End Steps.

(** The distance of both step lengths is strictly increasing up to the
    last count: the analysis of the rounding covers all counts but the
    last few, which are evaluated. *)
Lemma Training_increases (a1 a2 : Z) :
  - 6766225401698462 <= a1 -> a1 < a2 -> a2 <= 6766225401698462 ->
  PrimFloat.ltb (distance_of LEN_STEP_Training a1) (distance_of LEN_STEP_Training a2) = true.
Proof.
  intros H1 H12 H2.
  replace a2 with (a1 + 1 + Z.of_nat (Z.to_nat (a2 - a1 - 1))) by lia.
  apply (distance_increases LEN_STEP_Training 5854679515581645 (-53) eq_refl
           ltac:(lia) ltac:(lia) ltac:(lia) 6766225401698460 ltac:(lia) ltac:(lia)
           6766225401698462); try lia.
  - split; vm_compute; reflexivity.
  - intros a Ha. assert (a = 6766225401698461) as -> by lia.
    split; vm_compute; reflexivity.
Qed.

Lemma Swimming_increases (a1 a2 : Z) :
  - 6373980450875365 <= a1 -> a1 < a2 -> a2 <= 6373980450875365 ->
  PrimFloat.ltb (distance_of LEN_STEP_Swimming a1) (distance_of LEN_STEP_Swimming a2) = true.
Proof.
  intros H1 H12 H2.
  replace a2 with (a1 + 1 + Z.of_nat (Z.to_nat (a2 - a1 - 1))) by lia.
  apply (distance_increases LEN_STEP_Swimming 6214967485771284 (-52) eq_refl
           ltac:(lia) ltac:(lia) ltac:(lia) 6373980450875361 ltac:(lia) ltac:(lia)
           6373980450875365); try lia.
  - split; vm_compute; reflexivity.
  - intros a Ha.
    assert (a = 6373980450875362 \/ a = 6373980450875363 \/ a = 6373980450875364)
      as [-> |[-> | ->]] by lia; split; vm_compute; reflexivity.
Qed.

(** An int count of at most 53 bits converts to float without error. *)
Lemma as_double_count (a : Z) :
  - 2 ^ 53 < a < 2 ^ 53 -> Py.as_double (PyInt a) = Ok (Float.of_Z a).
Proof.
  intros Ha. cbn [Py.as_double].
  assert (Hfin : PrimFloat.is_infinity (Float.of_Z a) = false).
  { destruct a as [|p|p].
    - reflexivity.
    - destruct (of_Z_finite false p ltac:(lia)) as (Hconv & _).
      exact (finite_not_infinity _ _ _ _ Hconv).
    - destruct (of_Z_finite true p ltac:(lia)) as (Hconv & _).
      exact (finite_not_infinity _ _ _ _ Hconv). }
  rewrite Hfin. reflexivity.
Qed.

(** C9 (amended). For every variant and all int action counts
    -N <= a1 < a2 <= N, the other fields being equal, both distances are
    computed and the distance for a1 is strictly less than the distance
    for a2, where N is 6766225401698462 for the step 0.65 (Training,
    Running, SportsWalking) and 6373980450875365 for the step 1.38
    (Swimming).  N is the largest such bound: the counts N and N + 1 have
    the same distance. *)
Theorem get_distance_increasing (t : Training) (a1 a2 : Z) :
  - last_count t <= a1 -> a1 < a2 -> a2 <= last_count t ->
  exists d1 d2 : float,
    get_distance (with_action t (PyInt a1)) = Ok (PyFloat d1)
    /\ get_distance (with_action t (PyInt a2)) = Ok (PyFloat d2)
    /\ PrimFloat.ltb d1 d2 = true.
Proof.
  intros H1 H12 H2.
  set (step := match t with
               | Swimming _ _ _ _ _ => LEN_STEP_Swimming
               | _ => LEN_STEP_Training
               end).
  assert (Hlast : last_count t <= 6766225401698462) by (destruct t; cbn; lia).
  assert (Hdist : forall n, - last_count t <= n <= last_count t ->
            get_distance (with_action t (PyInt n)) = Ok (PyFloat (distance_of step n))).
  { intros n Hn.
    rewrite (get_distance_ok (with_action t (PyInt n)) (Float.of_Z n)).
    - destruct t; reflexivity.
    - destruct t; cbn [with_action action]; apply as_double_count; lia. }
  exists (distance_of step a1), (distance_of step a2).
  split; [apply Hdist; lia|]. split; [apply Hdist; lia|].
  destruct t; cbn [last_count] in H1, H2; unfold step;
    first [apply Training_increases; assumption | apply Swimming_increases; assumption].
Qed.

Lemma get_distance_increasing_witness :
  exists d1 d2 : float,
    get_distance (Running (PyInt 9000) (PyInt 1) (PyInt 75)) = Ok (PyFloat d1)
    /\ get_distance (Running (PyInt 15000) (PyInt 1) (PyInt 75)) = Ok (PyFloat d2)
    /\ PrimFloat.ltb d1 d2 = true.
Proof.
  apply (get_distance_increasing (Running (PyInt 0) (PyInt 1) (PyInt 75)) 9000 15000);
    vm_compute; congruence.
Defined.

(** C9, as stated, fails right after the last count of each step length,
    where two consecutive counts have the same distance, and again between
    2^53 and 2^53 + 1, which convert to the same float. *)
Lemma get_distance_not_increasing :
  (exists d : float,
     get_distance (Running (PyInt 6766225401698462) (PyInt 1) (PyInt 75)) = Ok (PyFloat d)
     /\ get_distance (Running (PyInt 6766225401698463) (PyInt 1) (PyInt 75)) = Ok (PyFloat d)
     /\ PrimFloat.ltb d d = false)
  /\ (exists d : float,
        get_distance (Swimming (PyInt 6373980450875365) (PyInt 1) (PyInt 80)
                        (PyInt 25) (PyInt 40)) = Ok (PyFloat d)
        /\ get_distance (Swimming (PyInt 6373980450875366) (PyInt 1) (PyInt 80)
                           (PyInt 25) (PyInt 40)) = Ok (PyFloat d)
        /\ PrimFloat.ltb d d = false)
  /\ 2 ^ 53 < 2 ^ 53 + 1
  /\ exists d1 d2 : float,
       get_distance (Running (PyInt (2 ^ 53)) (PyInt 1) (PyInt 75)) = Ok (PyFloat d1)
       /\ get_distance (Running (PyInt (2 ^ 53 + 1)) (PyInt 1) (PyInt 75)) = Ok (PyFloat d2)
       /\ PrimFloat.ltb d1 d2 = false.
Proof.
  split; [|split; [|split; [lia|]]].
  - eexists. split; [vm_compute; reflexivity|].
    split; vm_compute; reflexivity.
  - eexists. split; [vm_compute; reflexivity|].
    split; vm_compute; reflexivity.
  - eexists _, _.
    split; [vm_compute; reflexivity|].
    split; [vm_compute; reflexivity|].
    vm_compute. reflexivity.
Qed.

(** * Further properties *)

(** ** The dispatcher, completely *)

Section DispatcherComplete.

Implicit Types (code : string) (data : list num) (cls : training_class) (t : Training).

(** Building an instance and reading its fields back are inverse. *)
Lemma construct_fields cls data t :
  construct cls data = Ok t <-> class_of t = Some cls /\ fields t = data.
Proof.
  split.
  - destruct cls; cbn [construct];
      repeat (destruct data as [|? data]; try discriminate);
      intros H; inversion H; subst; split; reflexivity.
  - intros [Hcls Hf]. subst data.
    destruct t; cbn [class_of] in Hcls; inversion Hcls; subst; reflexivity.
Qed.

Lemma construct_raise cls data e :
  construct cls data = Raise e -> e = TypeError /\ length data <> arity cls.
Proof.
  destruct data as [|x1 [|x2 [|x3 [|x4 [|x5 [|x6 rest]]]]]];
    destruct cls; cbn [construct arity length]; try discriminate;
    intros H; inversion H; split; try reflexivity; lia.
Qed.

Lemma read_package_known code cls data :
  workout_code !! code = Some cls ->
  read_package code data = let? t := construct cls data in Ok (Instance t).
Proof.
  intros Hcode. unfold read_package, Fmt.getitem. rewrite Hcode. cbn [bind].
  destruct (construct cls data) as [t|e] eqn:Hc; [reflexivity|].
  destruct (construct_raise cls data e Hc) as [-> _]. reflexivity.
Qed.

Lemma read_package_missing code data :
  workout_code !! code = None -> read_package code data = Ok (Str unknown_workout).
Proof.
  intros Hcode. unfold read_package, Fmt.getitem. rewrite Hcode. reflexivity.
Qed.

End DispatcherComplete.

(** X1. [read_package] returns an instance exactly when the code maps to
    the instance's class and the instance's fields, in order, are the data:
    reading the fields of the result gives the data back. *)
Theorem read_package_instance (code : string) (data : list num) (t : Training) :
  read_package code data = Ok (Instance t)
  <-> exists cls, workout_code !! code = Some cls
                  /\ class_of t = Some cls /\ fields t = data.
Proof.
  split.
  - destruct (workout_code !! code) as [cls|] eqn:Hcode.
    + rewrite (read_package_known code cls data Hcode).
      destruct (construct cls data) as [t'|e] eqn:Hc; cbn [bind]; [|discriminate].
      intros H. inversion H; subst t'. exists cls.
      split; [reflexivity|]. apply construct_fields. exact Hc.
    + rewrite (read_package_missing code data Hcode). discriminate.
  - intros (cls & Hcode & Hcls & Hf).
    rewrite (read_package_known code cls data Hcode).
    rewrite (proj2 (construct_fields cls data t) (conj Hcls Hf)). reflexivity.
Qed.

(** X2. [read_package] raises nothing but TypeError, and raises it exactly
    when the code is recognized and the number of values is not the arity
    of its class; in particular the KeyError of the lookup never escapes. *)
Theorem read_package_raises (code : string) (data : list num) (e : exn) :
  read_package code data = Raise e
  <-> e = TypeError
      /\ exists cls, workout_code !! code = Some cls /\ length data <> arity cls.
Proof.
  split.
  - destruct (workout_code !! code) as [cls|] eqn:Hcode.
    + rewrite (read_package_known code cls data Hcode).
      destruct (construct cls data) as [t'|e'] eqn:Hc; cbn [bind]; [discriminate|].
      intros H. inversion H; subst e'.
      destruct (construct_raise cls data e Hc) as [-> Hlen].
      split; [reflexivity|]. exists cls. split; [reflexivity|exact Hlen].
    + rewrite (read_package_missing code data Hcode). discriminate.
  - intros (-> & cls & Hcode & Hlen).
    rewrite (read_package_known code cls data Hcode).
    rewrite (construct_arity cls data Hlen). reflexivity.
Qed.

(** ** What the methods return *)

Section MethodResults.

Implicit Types (a b r : num) (t : Training).

Lemma bind_ok {A B : Type} (r : result A) (k : A -> result B) (y : B) :
  bind r k = Ok y -> exists x, r = Ok x /\ k x = Ok y.
Proof.
  destruct r as [x|e]; cbn [bind]; [|discriminate].
  intros H. exists x. split; [reflexivity|exact H].
Qed.

Lemma float_binop_float op a b r :
  Py.float_binop op a b = Ok r -> exists f, r = PyFloat f.
Proof.
  unfold Py.float_binop. intros H.
  destruct (bind_ok _ _ _ H) as (x & _ & H1).
  destruct (bind_ok _ _ _ H1) as (y & _ & H2).
  inversion H2. eexists; reflexivity.
Qed.

Lemma mul_float_result_l (x : float) b r :
  Py.mul (PyFloat x) b = Ok r -> exists f, r = PyFloat f.
Proof. destruct b; apply float_binop_float. Qed.

Lemma mul_float_result_r a (y : float) r :
  Py.mul a (PyFloat y) = Ok r -> exists f, r = PyFloat f.
Proof. destruct a; apply float_binop_float. Qed.

Lemma add_float_result_l (x : float) b r :
  Py.add (PyFloat x) b = Ok r -> exists f, r = PyFloat f.
Proof. destruct b; apply float_binop_float. Qed.

Lemma sub_float_result_l (x : float) b r :
  Py.sub (PyFloat x) b = Ok r -> exists f, r = PyFloat f.
Proof. destruct b; apply float_binop_float. Qed.

Lemma floordiv_float_result_l (x : float) b r :
  Py.floordiv (PyFloat x) b = Ok r -> exists f, r = PyFloat f.
Proof.
  destruct b; unfold Py.floordiv; intros H;
    destruct (bind_ok _ _ _ H) as (x' & _ & H1);
    destruct (bind_ok _ _ _ H1) as (y' & _ & H2);
    destruct (Float.is_zero y'); inversion H2; eexists; reflexivity.
Qed.

Lemma pow_float_result (x : float) b r :
  Py.pow (PyFloat x) b = Ok r -> exists f, r = PyFloat f.
Proof.
  unfold Py.pow, Py.pow_on.
  destruct b as [z|y]; [|discriminate].
  destruct z as [|p|p]; try discriminate.
  destruct p as [p|p|]; try discriminate.
  destruct p as [p|p|]; try discriminate.
  intros H. destruct (bind_ok _ _ _ H) as (y & _ & H1).
  inversion H1. eexists; reflexivity.
Qed.

(** A true division that succeeds converted its divisor. *)
Lemma truediv_float_divisor (x : float) b r :
  Py.truediv (PyFloat x) b = Ok r ->
  exists y, Py.as_double b = Ok y /\ Float.is_zero y = false.
Proof.
  intros H.
  assert (H' : (let? x' := Py.as_double (PyFloat x) in
                let? y := Py.as_double b in
                if Float.is_zero y then Raise ZeroDivisionError
                else Ok (PyFloat (PrimFloat.div x' y))) = Ok r)
    by (destruct b; exact H).
  cbn [Py.as_double bind] in H'.
  destruct (Py.as_double b) as [y|] eqn:Hb.
  - cbn [bind] in H'. exists y. split; [reflexivity|].
    destruct (Float.is_zero y); [discriminate|reflexivity].
  - destruct b; discriminate.
Qed.

Lemma get_distance_float t r : get_distance t = Ok r -> exists f, r = PyFloat f.
Proof.
  intros H.
  assert (H' : (let? steps := Py.mul (action t) (LEN_STEP t) in
                Py.truediv steps M_IN_KM) = Ok r) by (destruct t; exact H).
  destruct (bind_ok _ _ _ H') as (x & _ & H1).
  exact (truediv_ok_float _ _ _ H1).
Qed.

Lemma get_mean_speed_float t r : get_mean_speed t = Ok r -> exists f, r = PyFloat f.
Proof.
  rewrite get_mean_speed_dividend. intros H.
  destruct (bind_ok _ _ _ H) as (x & _ & H1).
  exact (truediv_ok_float _ _ _ H1).
Qed.

Lemma get_mean_speed_duration t r :
  get_mean_speed t = Ok r ->
  exists fd, Py.as_double (duration t) = Ok fd /\ Float.is_zero fd = false.
Proof.
  rewrite get_mean_speed_dividend. intros H.
  destruct (bind_ok _ _ _ H) as (x & Hx & H1).
  destruct (mean_speed_dividend_float t x Hx) as [f ->].
  exact (truediv_float_divisor f _ _ H1).
Qed.

Local Ltac step H :=
  let x := fresh "x" in
  let Hx := fresh "Hx" in
  let H' := fresh "H" in
  destruct (bind_ok _ _ _ H) as (x & Hx & H'); clear H;
  first [ apply get_mean_speed_float in Hx
        | apply mul_float_result_l in Hx
        | apply mul_float_result_r in Hx
        | apply add_float_result_l in Hx
        | apply sub_float_result_l in Hx
        | apply truediv_ok_float in Hx
        | apply floordiv_float_result_l in Hx
        | apply pow_float_result in Hx ];
  destruct Hx as [? ->]; rename H' into H.

Lemma get_spent_calories_float t r :
  get_spent_calories t = Ok r -> exists f, r = PyFloat f.
Proof.
  destruct t as [a d w|a d w|a d w h|a d w l c]; cbn [get_spent_calories get_spent_calories_on]; intros H.
  - discriminate.
  - unfold Running_get_spent_calories in H.
    step H. step H. step H. step H. step H. step H.
    exact (mul_float_result_l _ _ _ H).
  - unfold SportsWalking_get_spent_calories_on in H.
    step H. step H. step H. step H. step H. step H. step H. step H.
    exact (mul_float_result_l _ _ _ H).
  - unfold Swimming_get_spent_calories in H.
    step H. step H. step H.
    exact (mul_float_result_l _ _ _ H).
Qed.

End MethodResults.

(** X3. Whatever the fields are, ints or floats, a distance, a mean speed
    or a calorie count that is returned is a float, as the annotations of
    the methods say. *)
Theorem methods_return_floats (t : Training) (r : num) :
  get_distance t = Ok r \/ get_mean_speed t = Ok r \/ get_spent_calories t = Ok r ->
  exists f : float, r = PyFloat f.
Proof.
  intros [H|[H|H]].
  - exact (get_distance_float t r H).
  - exact (get_mean_speed_float t r H).
  - exact (get_spent_calories_float t r H).
Qed.

Lemma methods_return_floats_witness :
  get_mean_speed (Swimming (PyInt 720) (PyInt 1) (PyInt 80) (PyInt 25) (PyInt 40))
  = Ok (PyFloat 1%float)
  /\ exists f : float, PyFloat 1%float = PyFloat f.
Proof.
  split; [vm_compute; reflexivity|].
  apply (methods_return_floats
           (Swimming (PyInt 720) (PyInt 1) (PyInt 80) (PyInt 25) (PyInt 40))
           (PyFloat 1%float)).
  right; left. vm_compute. reflexivity.
Defined.

(** ** The summary and the printed line *)

Lemma show_training_info_ok (t : Training) (info : InfoMessage.t) :
  show_training_info t = Ok info ->
  exists fd fdist fs fc : float,
    Py.as_double (duration t) = Ok fd
    /\ get_distance t = Ok (PyFloat fdist)
    /\ get_mean_speed t = Ok (PyFloat fs)
    /\ get_spent_calories t = Ok (PyFloat fc)
    /\ info = InfoMessage.make (class_name t) (duration t)
                (PyFloat fdist) (PyFloat fs) (PyFloat fc).
Proof.
  unfold show_training_info. intros H.
  destruct (bind_ok _ _ _ H) as (x & Hx & H1).
  destruct (bind_ok _ _ _ H1) as (y & Hy & H2).
  destruct (bind_ok _ _ _ H2) as (z & Hz & H3).
  destruct (get_distance_float t x Hx) as [fdist ->].
  destruct (get_mean_speed_duration t y Hy) as (fd & Hd & _).
  destruct (get_mean_speed_float t y Hy) as [fs ->].
  destruct (get_spent_calories_float t z Hz) as [fc ->].
  exists fd, fdist, fs, fc. inversion H3. repeat split; assumption.
Qed.

Lemma main_rendered (t : Training) (fd fdist fs fc : float) :
  Py.as_double (duration t) = Ok fd ->
  get_distance t = Ok (PyFloat fdist) ->
  get_mean_speed t = Ok (PyFloat fs) ->
  get_spent_calories t = Ok (PyFloat fc) ->
  main (Instance t) = Ok (rendered (class_name t) fd fdist fs fc).
Proof.
  intros Hd Hdist Hs Hc. cbn [main]. unfold show_training_info.
  rewrite Hdist, Hs, Hc. cbn [bind].
  exact (get_message_rendered (class_name t) (duration t)
           (PyFloat fdist) (PyFloat fs) (PyFloat fc)
           fd fdist fs fc Hd eq_refl eq_refl eq_refl).
Qed.

Lemma main_raise (t : Training) (e : exn) :
  main (Instance t) = Raise e -> show_training_info t = Raise e.
Proof.
  intros H. destruct (show_training_info t) as [info|e'] eqn:Hshow.
  - destruct (show_training_info_ok t info Hshow)
      as (fd & fdist & fs & fc & Hd & Hdist & Hs & Hc & _).
    rewrite (main_rendered t fd fdist fs fc Hd Hdist Hs Hc) in H. discriminate.
  - cbn [main] in H. rewrite Hshow in H. cbn [bind] in H.
    inversion H. reflexivity.
Qed.

(** X4. Whenever [show_training_info] returns a summary, the summary holds
    the class name, the duration as given and the three method results,
    all floats, and [get_message] and [main] render it without fail: the
    default template with the duration, distance, speed and calories each
    through [format(x, '.3f')], which gives three decimals for a finite
    number and inf, -inf or nan for the others (a float overflow reaches
    the line that way). *)
Theorem summary_always_renders (t : Training) (info : InfoMessage.t) :
  show_training_info t = Ok info ->
  exists fd fdist fs fc : float,
    Py.as_double (duration t) = Ok fd
    /\ get_distance t = Ok (PyFloat fdist)
    /\ get_mean_speed t = Ok (PyFloat fs)
    /\ get_spent_calories t = Ok (PyFloat fc)
    /\ info = InfoMessage.make (class_name t) (duration t)
                (PyFloat fdist) (PyFloat fs) (PyFloat fc)
    /\ InfoMessage.get_message info = Ok (rendered (class_name t) fd fdist fs fc)
    /\ main (Instance t) = Ok (rendered (class_name t) fd fdist fs fc)
    /\ (forall x : float, finite x = true -> three_decimals (Fmt.float_3f x))
    /\ (forall x : float, finite x = false ->
          Fmt.float_3f x = "inf"%string \/ Fmt.float_3f x = "-inf"%string
          \/ Fmt.float_3f x = "nan"%string).
Proof.
  intros Hshow.
  destruct (show_training_info_ok t info Hshow)
    as (fd & fdist & fs & fc & Hd & Hdist & Hs & Hc & Hinfo).
  exists fd, fdist, fs, fc.
  repeat (split; [assumption|]). split; [|split; [|split]].
  - subst info.
    exact (get_message_rendered (class_name t) (duration t)
             (PyFloat fdist) (PyFloat fs) (PyFloat fc)
             fd fdist fs fc Hd eq_refl eq_refl eq_refl).
  - exact (main_rendered t fd fdist fs fc Hd Hdist Hs Hc).
  - exact float_3f_three_decimals.
  - exact float_3f_not_finite.
Qed.

Lemma summary_always_renders_witness :
  exists fd fdist fs fc : float,
    main (Instance (Running (PyInt 15000) (PyInt 1) (PyInt 75)))
    = Ok (rendered "Running" fd fdist fs fc).
Proof.
  destruct (summary_always_renders
              (Running (PyInt 15000) (PyInt 1) (PyInt 75))
              (InfoMessage.make "Running" (PyInt 1) (PyFloat 9.75) (PyFloat 9.75)
                 (PyFloat 699.75))
              eq_refl)
    as (fd & fdist & fs & fc & _ & _ & _ & _ & _ & _ & Hmain & _).
  exists fd, fdist, fs, fc. exact Hmain.
Defined.

(** A summary whose numbers are not all finite: a thousand steps in the
    smallest positive duration give an infinite speed, and the line says
    so. *)
Lemma summary_with_infinity :
  main (Instance (Running (PyFloat 1000) (PyFloat 0x1p-1074) (PyFloat 75)))
  = Ok "Тип тренировки: Running; Длительность: 0.000 ч.; Дистанция: 0.650 км; Ср. скорость: inf км/ч; Потрачено ккал: inf."%string.
Proof. vm_compute. reflexivity. Qed.

(** X5. One package through the dispatcher and [main] can fail in four
    ways only: AttributeError for an unknown code, TypeError for a wrong
    number of values, and the ZeroDivisionError or OverflowError of a
    method of the instance that was built.  It never fails with
    NotImplementedError, KeyError or ValueError, nor in the formatter. *)
Theorem run_raises (code : string) (data : list num) (e : exn) :
  run (code, data) = Raise e ->
  (e = AttributeError /\ workout_code !! code = None)
  \/ (e = TypeError
      /\ exists cls, workout_code !! code = Some cls /\ length data <> arity cls)
  \/ (arithmetic e
      /\ exists t, read_package code data = Ok (Instance t)
                   /\ show_training_info t = Raise e).
Proof.
  unfold run. cbn [fst snd]. intros H.
  destruct (workout_code !! code) as [cls|] eqn:Hcode.
  - rewrite (read_package_known code cls data Hcode) in *.
    destruct (construct cls data) as [t|e'] eqn:Hc; cbn [bind] in *.
    + right; right.
      pose proof (main_raise t e H) as Hshow.
      assert (Hcls : class_of t = Some cls)
        by (apply (construct_fields cls data t); exact Hc).
      split; [|exists t; split; [reflexivity|exact Hshow]].
      unfold show_training_info in Hshow.
      destruct (bind_raise _ _ _ Hshow) as [H1|(x & _ & H1)].
      { exact (get_distance_raise t e H1). }
      destruct (bind_raise _ _ _ H1) as [H2|(y & _ & H2)].
      { exact (get_mean_speed_raise t e H2). }
      destruct (bind_raise _ _ _ H2) as [H3|(z & _ & H3)]; [|discriminate].
      apply (concrete_calories_raise Float.rounded_square t e); [|exact H3].
      intros a d w ->. discriminate.
    + right; left. inversion H; subst e'.
      destruct (construct_raise cls data e Hc) as [-> Hlen].
      split; [reflexivity|]. exists cls. split; [reflexivity|exact Hlen].
  - left. rewrite (read_package_missing code data Hcode) in H.
    cbn [bind main] in H. inversion H. split; reflexivity.
Qed.

Lemma run_raises_witness :
  arithmetic ZeroDivisionError
  /\ run ("RUN", [PyInt 15000; PyInt 0; PyInt 75]) = Raise ZeroDivisionError.
Proof.
  assert (H : run ("RUN", [PyInt 15000; PyInt 0; PyInt 75]) = Raise ZeroDivisionError)
    by (vm_compute; reflexivity).
  split; [|exact H].
  destruct (run_raises "RUN" [PyInt 15000; PyInt 0; PyInt 75] ZeroDivisionError H)
    as [[Habs _]|[[Habs _]|[Harith _]]]; [discriminate Habs|discriminate Habs|exact Harith].
Defined.

(** X6. A bare [Training] instance never gets a summary:
    [show_training_info] always raises on it, and what it raises is
    NotImplementedError exactly when the distance and the mean speed were
    computed first. *)
Theorem base_never_summarised (a d w : num) :
  is_ok (show_training_info (Base a d w)) = false
  /\ (show_training_info (Base a d w) = Raise NotImplementedError
      <-> is_ok (get_mean_speed (Base a d w)) = true).
Proof.
  unfold show_training_info.
  assert (Hspeed : get_mean_speed (Base a d w)
                   = let? distance := get_distance (Base a d w) in
                     Py.truediv distance d) by reflexivity.
  destruct (get_distance (Base a d w)) as [x|e1] eqn:Hdist; cbn [bind] in *.
  - destruct (get_mean_speed (Base a d w)) as [y|e2] eqn:Hs; cbn [bind is_ok].
    + split; [reflexivity|]. split; reflexivity.
    + split; [reflexivity|]. split; [|discriminate].
      intros H. inversion H; subst e2.
      destruct (get_mean_speed_raise (Base a d w) NotImplementedError Hs); discriminate.
  - rewrite Hspeed. cbn [is_ok]. split; [reflexivity|]. split; [|discriminate].
    intros H. inversion H; subst e1.
    destruct (get_distance_raise (Base a d w) NotImplementedError Hdist); discriminate.
Qed.

(** ** Float fields: what raises and what does not *)

Section FloatFields.

Variables fa fd fw : float.

Lemma float_mean_speed (t : Training) :
  action t = PyFloat fa -> duration t = PyFloat fd ->
  Training_get_mean_speed t
  = if Float.is_zero fd then Raise ZeroDivisionError
    else Ok (PyFloat (PrimFloat.div
                        (PrimFloat.div
                           (PrimFloat.mul fa (match t with
                                              | Swimming _ _ _ _ _ => LEN_STEP_Swimming
                                              | _ => LEN_STEP_Training
                                              end)) 1000) fd)).
Proof.
  intros Ha Hd. unfold Training_get_mean_speed.
  rewrite (get_distance_ok t fa) by (rewrite Ha; reflexivity).
  cbn [bind]. rewrite Hd.
  destruct (Float.is_zero fd) eqn:Hz.
  - apply truediv_float_by_zero. exact Hz.
  - exact (truediv_float_l _ (PyFloat fd) fd eq_refl Hz).
Qed.

Lemma float_Running_calories :
  get_spent_calories (Running (PyFloat fa) (PyFloat fd) (PyFloat fw))
  = if Float.is_zero fd then Raise ZeroDivisionError
    else Ok (PyFloat ((18 * (fa * LEN_STEP_Training / 1000 / fd) - 20)
                      * fw / 1000 * fd * 60)%float).
Proof.
  cbn [get_spent_calories get_spent_calories_on]. unfold Running_get_spent_calories.
  cbn [get_mean_speed weight duration].
  rewrite (float_mean_speed (Running (PyFloat fa) (PyFloat fd) (PyFloat fw)) eq_refl eq_refl).
  destruct (Float.is_zero fd); [reflexivity|]. cbn [bind].
  rewrite (mul_float_r _ _ _ as_double_RUN_1). cbn [bind].
  rewrite (sub_float_l _ _ _ as_double_RUN_2). cbn [bind].
  rewrite (mul_float_l _ _ _ (as_double_float fw)). cbn [bind].
  rewrite truediv_float_M_IN_KM. cbn [bind].
  rewrite (mul_float_l _ _ _ (as_double_float fd)). cbn [bind].
  exact (mul_float_l _ _ _ as_double_MINUTES).
Qed.

Lemma float_Swimming_calories (fl fc : float) :
  get_spent_calories (Swimming (PyFloat fa) (PyFloat fd) (PyFloat fw) (PyFloat fl) (PyFloat fc))
  = if Float.is_zero fd then Raise ZeroDivisionError
    else Ok (PyFloat ((fl * fc / 1000 / fd + COEFF_CALORIE_SWIM_1) * 2 * fw)%float).
Proof.
  cbn [get_spent_calories get_spent_calories_on]. unfold Swimming_get_spent_calories.
  cbn [get_mean_speed weight]. unfold Swimming_get_mean_speed. cbn [duration].
  rewrite (mul_float_l _ _ _ (as_double_float fc)). cbn [bind].
  rewrite truediv_float_M_IN_KM. cbn [bind].
  destruct (Float.is_zero fd) eqn:Hz.
  - rewrite (truediv_float_by_zero _ (PyFloat fd) Hz). reflexivity.
  - rewrite (truediv_float_l _ (PyFloat fd) fd eq_refl Hz). cbn [bind].
    rewrite (add_float_l _ _ _ (as_double_float _)). cbn [bind].
    rewrite (mul_float_l _ _ _ as_double_SWIM_2). cbn [bind].
    exact (mul_float_l _ _ _ (as_double_float fw)).
Qed.

Lemma float_SportsWalking_calories (libm_pow2 : float -> float) (fh : float) :
  get_spent_calories_on libm_pow2
    (SportsWalking (PyFloat fa) (PyFloat fd) (PyFloat fw) (PyFloat fh))
  = if Float.is_zero fd then Raise ZeroDivisionError
    else
      let? sq := Float.pow2_on libm_pow2 (fa * LEN_STEP_Training / 1000 / fd)%float in
      if Float.is_zero fh then Raise ZeroDivisionError
      else Ok (PyFloat ((COEFF_CALORIE_WALK_1 * fw
                         + Float.floordiv sq fh * COEFF_CALORIE_WALK_2 * fw)
                        * fd * 60)%float).
Proof.
  cbn [get_spent_calories_on]. unfold SportsWalking_get_spent_calories_on.
  cbn [get_mean_speed weight duration].
  rewrite (mul_float_l _ _ _ (as_double_float fw)). cbn [bind].
  rewrite (float_mean_speed
             (SportsWalking (PyFloat fa) (PyFloat fd) (PyFloat fw) (PyFloat fh))
             eq_refl eq_refl).
  destruct (Float.is_zero fd); [reflexivity|]. cbn [bind].
  unfold COEFF_CALORIE_WALK_3. cbn [Py.pow_on].
  destruct (Float.pow2_on _ _) as [sq|e]; cbn [bind]; [|reflexivity].
  destruct (Float.is_zero fh) eqn:Hz.
  - rewrite (floordiv_float_by_zero sq (PyFloat fh) Hz). reflexivity.
  - rewrite (floordiv_float_l sq (PyFloat fh) fh eq_refl Hz). cbn [bind].
    rewrite (mul_float_l _ _ _ (as_double_float COEFF_CALORIE_WALK_2)). cbn [bind].
    rewrite (mul_float_l _ _ _ (as_double_float fw)). cbn [bind].
    rewrite (add_float_l _ _ _ (as_double_float _)). cbn [bind].
    rewrite (mul_float_l _ _ _ (as_double_float fd)). cbn [bind].
    exact (mul_float_l _ _ _ as_double_MINUTES).
Qed.

End FloatFields.

(** X7. With float fields, the calories of Running and of Swimming raise
    for a zero duration only, and then ZeroDivisionError; every other
    value, infinities and NaN included, gives a float, so an overflow
    comes back as inf or nan and is never raised. *)
Theorem float_fields_raise_on_zero_duration_only (fa fd fw fl fc : float) :
  get_spent_calories (Running (PyFloat fa) (PyFloat fd) (PyFloat fw))
  = (if Float.is_zero fd then Raise ZeroDivisionError
     else Ok (PyFloat ((18 * (fa * LEN_STEP_Training / 1000 / fd) - 20)
                       * fw / 1000 * fd * 60)%float))
  /\ get_spent_calories
       (Swimming (PyFloat fa) (PyFloat fd) (PyFloat fw) (PyFloat fl) (PyFloat fc))
     = (if Float.is_zero fd then Raise ZeroDivisionError
        else Ok (PyFloat ((fl * fc / 1000 / fd + COEFF_CALORIE_SWIM_1) * 2 * fw)%float))
  /\ get_spent_calories
       (Running (PyFloat 0x1p+1023) (PyFloat 0x1p-1000) (PyFloat 75))
     = Ok (PyFloat PrimFloat.infinity).
Proof.
  split; [apply float_Running_calories|].
  split; [apply float_Swimming_calories|].
  vm_compute. reflexivity.
Qed.

(** X8. With float fields, SportsWalking's calories fail in this order and
    in no other way, whatever the C library's pow is: ZeroDivisionError
    for a zero duration, else OverflowError when [speed ** 2] overflows,
    else ZeroDivisionError for a zero height; otherwise the float of the
    formula is returned, with the square that [speed ** 2] gave. *)
Theorem float_SportsWalking_failures (libm_pow2 : float -> float) (fa fd fw fh : float) :
  get_spent_calories_on libm_pow2
    (SportsWalking (PyFloat fa) (PyFloat fd) (PyFloat fw) (PyFloat fh))
  = if Float.is_zero fd then Raise ZeroDivisionError
    else
      match Float.pow2_on libm_pow2 (fa * LEN_STEP_Training / 1000 / fd)%float with
      | Raise e => Raise OverflowError
      | Ok squared =>
          if Float.is_zero fh then Raise ZeroDivisionError
          else Ok (PyFloat ((COEFF_CALORIE_WALK_1 * fw
                             + Float.floordiv squared fh * COEFF_CALORIE_WALK_2 * fw)
                            * fd * 60)%float)
      end.
Proof.
  rewrite float_SportsWalking_calories.
  destruct (Float.is_zero fd); [reflexivity|].
  destruct (Float.pow2_on _ _) as [squared|e] eqn:Hsq; cbn [bind]; [reflexivity|].
  rewrite (pow2_raise _ _ _ Hsq). reflexivity.
Qed.

(** ** Templates other than the default *)

Section Templates.

Variable resolve : string -> result Fmt.value.

Lemma scan_brace_free (template : string) :
  brace_free template = true -> Fmt.scan Fmt.Literal template resolve = Ok template.
Proof.
  induction template as [|c rest IH]; [reflexivity|].
  cbn [brace_free Fmt.scan]. intros H.
  apply andb_prop in H. destruct H as [H Hrest].
  apply andb_prop in H. destruct H as [Hopen Hclose].
  apply negb_true_iff in Hopen, Hclose.
  rewrite Hopen, Hclose, (IH Hrest). reflexivity.
Qed.






End Templates.


(** Fields that address a positional argument: the program passes none,
    so an empty or a numeric field name raises IndexError, with or without
    a format specification, and before any later field is looked at. *)
Lemma get_message_positional_field (label : string) (d di s c : num) :
  InfoMessage.get_message (InfoMessage.Build label d di s c "{0}") = Raise IndexError
  /\ InfoMessage.get_message (InfoMessage.Build label d di s c "{}") = Raise IndexError
  /\ InfoMessage.get_message (InfoMessage.Build label d di s c "{:.3f} {pace}")
     = Raise IndexError
  /\ InfoMessage.get_message
       (InfoMessage.Build label d di s c "{99999999999999999999}") = Raise ValueError.
Proof. repeat split. Qed.

(** A numeric field name is an index up to the largest [Py_ssize_t];
    beyond it the digits themselves are refused. *)
Lemma get_message_numeric_field (label : string) (d di s c : num) :
  InfoMessage.get_message
    (InfoMessage.Build label d di s c "{9223372036854775807}") = Raise IndexError
  /\ InfoMessage.get_message
       (InfoMessage.Build label d di s c "{9223372036854775808}") = Raise ValueError
  /\ InfoMessage.get_message (InfoMessage.Build label d di s c "{1a}") = Raise KeyError.
Proof. repeat split. Qed.


(** X9. A message whose template holds no brace is returned as it is,
    whatever the five fields are: nothing is substituted and no field is
    converted, so none can make it fail. *)
Theorem get_message_without_fields (label : string) (d di s c : num) (template : string) :
  brace_free template = true ->
  InfoMessage.get_message (InfoMessage.Build label d di s c template) = Ok template.
Proof.
  intros H. unfold InfoMessage.get_message, Fmt.format.
  cbn [InfoMessage.message_output]. apply scan_brace_free. exact H.
Qed.

Lemma get_message_without_fields_witness :
  InfoMessage.get_message
    (InfoMessage.Build "Running" (PyInt (10 ^ 400)) (PyFloat PrimFloat.nan)
       (PyInt 0) (PyInt 0) "no fields here")
  = Ok "no fields here".
Proof.
  apply (get_message_without_fields "Running" (PyInt (10 ^ 400))
           (PyFloat PrimFloat.nan) (PyInt 0) (PyInt 0) "no fields here").
  reflexivity.
Defined.



(** ** The accuracy of a rendered number *)

Lemma round_half_even_nearest (n e : Z) :
  0 <= n ->
  let r := Fmt.round_half_even n e in
  (0 <= e -> r = n * 2 ^ e)
  /\ (e < 0 -> 2 * Z.abs (r * 2 ^ (- e) - n) <= 2 ^ (- e)
              /\ (2 * Z.abs (r * 2 ^ (- e) - n) = 2 ^ (- e) -> Z.even r = true)).
Proof.
  intros Hn. unfold Fmt.round_half_even.
  destruct (Z.leb_spec 0 e) as [He|He]; cbv zeta.
  - split; [intros _; apply Z.shiftl_mul_pow2; exact He|lia].
  - split; [lia|]. intros _.
    set (k := - e). assert (Hk : 0 < k) by (unfold k; lia).
    rewrite Z.shiftr_div_pow2 by lia.
    rewrite !Z.shiftl_mul_pow2 by lia.
    set (h := 2 ^ (k - 1)). assert (Hh : 0 < h) by (apply Z.pow_pos_nonneg; lia).
    assert (H2k : 2 ^ k = 2 * h).
    { unfold h. rewrite <- Z.pow_succ_r by lia. f_equal. lia. }
    rewrite H2k, Z.mul_1_l.
    pose proof (Z.div_mod n (2 * h) ltac:(lia)) as Hdiv.
    pose proof (Z.mod_pos_bound n (2 * h) ltac:(lia)) as Hmod.
    set (q := n / (2 * h)) in *. set (m := n mod (2 * h)) in *.
    replace (n - q * (2 * h)) with m by lia.
    destruct (Z.compare_spec m h) as [Heq|Hlt|Hgt].
    + destruct (Z.even q) eqn:Heven.
      * split; [lia|]. intros _. exact Heven.
      * split; [lia|]. intros _.
        rewrite Z.even_add, Heven. reflexivity.
    + split; lia.
    + split; lia.
Qed.

(** X11. A finite non-zero float is rendered as its sign and the number
    of thousandths nearest to its exact value [m * 2^e], a tie going to
    the even number: the printed value is never more than half a
    thousandth away from the field. *)
Theorem float_3f_nearest (x : float) (s : bool) (m : positive) (e : Z) :
  Prim2SF x = S754_finite s m e ->
  exists thousandths : Z,
    Fmt.float_3f x = Fmt.sign_prefix s (Fmt.fixed3 thousandths)
    /\ (0 <= e -> thousandths = Z.pos m * 1000 * 2 ^ e)
    /\ (e < 0 ->
        2 * Z.abs (thousandths * 2 ^ (- e) - Z.pos m * 1000) <= 2 ^ (- e)
        /\ (2 * Z.abs (thousandths * 2 ^ (- e) - Z.pos m * 1000) = 2 ^ (- e) ->
            Z.even thousandths = true)).
Proof.
  intros Hx. exists (Fmt.round_half_even (Z.pos m * 1000) e).
  split.
  - unfold Fmt.float_3f. rewrite Hx. reflexivity.
  - apply round_half_even_nearest. lia.
Qed.

Lemma float_3f_nearest_witness :
  exists thousandths : Z,
    Fmt.float_3f 0.0625%float = Fmt.sign_prefix false (Fmt.fixed3 thousandths)
    /\ 2 * Z.abs (thousandths * 2 ^ 56 - 4503599627370496 * 1000) <= 2 ^ 56.
Proof.
  destruct (float_3f_nearest 0.0625%float false 4503599627370496 (-56) eq_refl)
    as (n & Hrender & _ & Hnear).
  exists n. split; [exact Hrender|]. apply Hnear. lia.
Defined.

(** ** A run without steps *)

Lemma not_nan_not_zero (y : float) :
  PrimFloat.is_nan y = false -> Float.is_zero y = false ->
  exists s, Prim2SF y = S754_infinity s \/ exists m e, Prim2SF y = S754_finite s m e.
Proof.
  unfold PrimFloat.is_nan, Float.is_zero.
  rewrite !FloatAxioms.eqb_spec.
  change (Prim2SF PrimFloat.zero) with (S754_zero false).
  destruct (Prim2SF y) as [s|s| |s m e]; intros Hnan Hzero.
  - destruct s; discriminate.
  - exists s. left. reflexivity.
  - discriminate.
  - exists s. right. exists m, e. reflexivity.
Qed.

Lemma zero_div (y : float) :
  PrimFloat.is_nan y = false -> Float.is_zero y = false ->
  PrimFloat.div 0%float y = 0%float \/ PrimFloat.div 0%float y = (-0)%float.
Proof.
  intros Hnan Hzero.
  destruct (not_nan_not_zero y Hnan Hzero) as [s [Hy|(m & e & Hy)]].
  - destruct s; [right|left]; apply Prim2SF_inj;
      rewrite FloatAxioms.div_spec, Hy; reflexivity.
  - destruct s; [right|left]; apply Prim2SF_inj;
      rewrite FloatAxioms.div_spec, Hy; reflexivity.
Qed.

(** X12. A run of zero steps over a duration that is a number other than
    zero has distance 0 and speed zero, and its calories are
    (0 - 20)*weight/1000*duration*60: the formula starts below zero. *)
Theorem Running_without_steps (d w : num) (fd fw : float) :
  Py.as_double d = Ok fd ->
  Py.as_double w = Ok fw ->
  Float.is_zero fd = false ->
  PrimFloat.is_nan fd = false ->
  get_distance (Running (PyInt 0) d w) = Ok (PyFloat 0%float)
  /\ (exists speed, get_mean_speed (Running (PyInt 0) d w) = Ok (PyFloat speed)
                    /\ Float.is_zero speed = true)
  /\ get_spent_calories (Running (PyInt 0) d w)
     = Ok (PyFloat (-20 * fw / 1000 * fd * 60)%float).
Proof.
  intros Hd Hw Hzero Hnan.
  assert (Hdist : get_distance (Running (PyInt 0) d w) = Ok (PyFloat 0%float)).
  { rewrite (get_distance_ok (Running (PyInt 0) d w) 0%float eq_refl). reflexivity. }
  assert (Hspeed : get_mean_speed (Running (PyInt 0) d w)
                   = Ok (PyFloat (PrimFloat.div 0%float fd))).
  { cbn [get_mean_speed]. unfold Training_get_mean_speed.
    rewrite Hdist. cbn [bind duration]. exact (truediv_float_l _ _ _ Hd Hzero). }
  split; [exact Hdist|]. split.
  { exists (PrimFloat.div 0%float fd). split; [exact Hspeed|].
    destruct (zero_div fd Hnan Hzero) as [-> | ->]; reflexivity. }
  cbn [get_spent_calories get_spent_calories_on]. unfold Running_get_spent_calories.
  rewrite Hspeed. cbn [bind weight duration].
  rewrite (mul_float_r _ _ _ as_double_RUN_1). cbn [bind].
  rewrite (sub_float_l _ _ _ as_double_RUN_2). cbn [bind].
  assert (Hbase : PrimFloat.sub (PrimFloat.mul 18 (PrimFloat.div 0 fd)) 20 = (-20)%float).
  { destruct (zero_div fd Hnan Hzero) as [-> | ->]; reflexivity. }
  rewrite Hbase.
  rewrite (mul_float_l _ _ _ Hw). cbn [bind].
  rewrite truediv_float_M_IN_KM. cbn [bind].
  rewrite (mul_float_l _ _ _ Hd). cbn [bind].
  exact (mul_float_l _ _ _ as_double_MINUTES).
Qed.

Lemma Running_without_steps_witness :
  get_spent_calories (Running (PyInt 0) (PyInt 1) (PyInt 75)) = Ok (PyFloat (-90)%float).
Proof.
  exact (proj2 (proj2 (Running_without_steps (PyInt 1) (PyInt 75) 1%float 75%float
                         eq_refl eq_refl eq_refl eq_refl))).
Defined.
